(** * HASSH: SSH client and server fingerprints (python/hassh.py)

    A shallow embedding of the fingerprinting engine of [hassh.py]:
    the banner cache, the direction test on the TCP ports, the two
    fingerprint builders, the retransmission event, the CSV row
    formatter, the bounded replay loop of [process_pcap_file], the
    per-packet body of [live_capture] and the log writing of [main].

    Conventions of the embedding:
    - a Python [str] is a Rocq [string] holding its UTF-8 bytes, so
      [str.encode()] is the list of the bytes of the string;
    - a Python value that may be [None] is a [pyval];
    - a Python [dict] with string keys is a [gmap string _];
    - a pyshark layer is the map from its field names to their values:
      [name in layer.field_names] is a lookup that succeeds and
      [layer.name] raises [AttributeError] when it does not;
    - a raised exception is the [Raise] result of the error monad [res];
      the loops thread their mutable state explicitly, so what was
      written before an exception is still there after it. *)

From Stdlib Require Import ZArith Ascii String List Bool Lia.
From stdpp Require Import base option list gmap strings.

Local Open Scope string_scope.
Local Open Scope Z_scope.

(** ** Python values and exceptions *)

Inductive pyval : Type :=
  | PNone : pyval
  | PStr (s : string) : pyval.

Global Instance pyval_eq_dec : EqDecision pyval.
Proof. solve_decision. Defined.

Inductive exn : Type :=
  | AttributeError (name : string)
  | KeyError (key : string)
  | ValueError (literal : string)
  | UnboundLocalError (var : string).

Global Instance exn_eq_dec : EqDecision exn.
Proof. solve_decision. Defined.

Inductive res (A : Type) : Type :=
  | Ok (a : A)
  | Raise (e : exn).
Arguments Ok {A} a.
Arguments Raise {A} e.

Global Instance res_ret : MRet res := @Ok.
Global Instance res_bind : MBind res := fun A B f m =>
  match m with
  | Ok a => f a
  | Raise e => Raise e
  end.

Definition is_ok {A} (r : res A) : bool :=
  match r with Ok _ => true | Raise _ => false end.

(** [str(v)], which is what [str.format] writes for a field. *)
Definition py_str (v : pyval) : string :=
  match v with
  | PNone => "None"
  | PStr s => s
  end.

(** A dict with string keys; [d[k]] raises [KeyError] on a missing key. *)
Abbreviation dict := (gmap string pyval).

Definition dict_in (k : string) (d : dict) : bool :=
  match d !! k with Some _ => true | None => false end.

Definition dict_get (d : dict) (k : string) : res pyval :=
  match d !! k with
  | Some v => Ok v
  | None => Raise (KeyError k)
  end.

(** A dict display [{k1: v1, ..., kn: vn}]: the keys are set from left
    to right. *)
Definition dict_of (l : list (string * pyval)) : dict :=
  fold_left (fun d kv => <[kv.1 := kv.2]> d) l ∅.

(** [sep.join(l)] *)
Fixpoint str_join (sep : string) (l : list string) : string :=
  match l with
  | [] => EmptyString
  | [s] => s
  | s :: rest => s +:+ sep +:+ str_join sep rest
  end.

(** ** int(str), for the ASCII strings a dissector writes

    Optional white space around, an optional sign, then decimal digits in
    which single underscores may separate digits. Anything else is a
    [ValueError]. *)

Definition is_space (c : ascii) : bool :=
  let n := nat_of_ascii c in
  (Nat.leb 9 n && Nat.leb n 13) || Nat.eqb n 32.

Definition is_digit (c : ascii) : bool :=
  let n := nat_of_ascii c in Nat.leb 48 n && Nat.leb n 57.

Definition digit_val (c : ascii) : Z := Z.of_nat (nat_of_ascii c) - 48.

Fixpoint lstrip (l : list ascii) : list ascii :=
  match l with
  | c :: r => if is_space c then lstrip r else l
  | [] => []
  end.

Definition strip (l : list ascii) : list ascii :=
  rev (lstrip (rev (lstrip l))).

(** The digits after the sign: [prev_us] tells that the character before
    was an underscore (or that there was none yet, where an underscore is
    refused as well). *)
Fixpoint int_digits (prev_us : bool) (acc : Z) (l : list ascii) : option Z :=
  match l with
  | [] => if prev_us then None else Some acc
  | c :: r =>
      if is_digit c then int_digits false (10 * acc + digit_val c) r
      else if Ascii.eqb c "_" then
        if prev_us then None else int_digits true acc r
      else None
  end.

Definition int_literal (l : list ascii) : option Z :=
  match strip l with
  | "-"%char :: r => Z.opp <$> int_digits true 0 r
  | "+"%char :: r => int_digits true 0 r
  | r => int_digits true 0 r
  end.

Definition py_int (s : string) : res Z :=
  match int_literal (list_ascii_of_string s) with
  | Some n => Ok n
  | None => Raise (ValueError s)
  end.

(** ** MD5 (RFC 1321), as [hashlib.md5(data).hexdigest()]

    Words are 32-bit, kept in [Z] with the wrap-around written out. *)

Module MD5.

Definition mask32 : Z := 0xFFFFFFFF.
Definition wrap (x : Z) : Z := Z.land x mask32.
Definition add32 (x y : Z) : Z := wrap (x + y).
Definition not32 (x : Z) : Z := Z.lxor x mask32.
Definition rotl32 (x : Z) (n : Z) : Z :=
  wrap (Z.lor (Z.shiftl x n) (Z.shiftr (wrap x) (32 - n))).

Definition shifts : list Z :=
  [7; 12; 17; 22; 7; 12; 17; 22; 7; 12; 17; 22; 7; 12; 17; 22;
   5; 9; 14; 20; 5; 9; 14; 20; 5; 9; 14; 20; 5; 9; 14; 20;
   4; 11; 16; 23; 4; 11; 16; 23; 4; 11; 16; 23; 4; 11; 16; 23;
   6; 10; 15; 21; 6; 10; 15; 21; 6; 10; 15; 21; 6; 10; 15; 21].

Definition sines : list Z :=
  [0xd76aa478; 0xe8c7b756; 0x242070db; 0xc1bdceee;
   0xf57c0faf; 0x4787c62a; 0xa8304613; 0xfd469501;
   0x698098d8; 0x8b44f7af; 0xffff5bb1; 0x895cd7be;
   0x6b901122; 0xfd987193; 0xa679438e; 0x49b40821;
   0xf61e2562; 0xc040b340; 0x265e5a51; 0xe9b6c7aa;
   0xd62f105d; 0x02441453; 0xd8a1e681; 0xe7d3fbc8;
   0x21e1cde6; 0xc33707d6; 0xf4d50d87; 0x455a14ed;
   0xa9e3e905; 0xfcefa3f8; 0x676f02d9; 0x8d2a4c8a;
   0xfffa3942; 0x8771f681; 0x6d9d6122; 0xfde5380c;
   0xa4beea44; 0x4bdecfa9; 0xf6bb4b60; 0xbebfbc70;
   0x289b7ec6; 0xeaa127fa; 0xd4ef3085; 0x04881d05;
   0xd9d4d039; 0xe6db99e5; 0x1fa27cf8; 0xc4ac5665;
   0xf4292244; 0x432aff97; 0xab9423a7; 0xfc93a039;
   0x655b59c3; 0x8f0ccc92; 0xffeff47d; 0x85845dd1;
   0x6fa87e4f; 0xfe2ce6e0; 0xa3014314; 0x4e0811a1;
   0xf7537e82; 0xbd3af235; 0x2ad7d2bb; 0xeb86d391].

Record state := State { sa : Z; sb : Z; sc : Z; sd : Z }.

Definition init : state :=
  State 0x67452301 0xefcdab89 0x98badcfe 0x10325476.

(** One of the 64 operations on the block [M] of sixteen words. *)
Definition step (M : list Z) (st : state) (i : nat) : state :=
  let '(State A B C D) := st in
  let iz := Z.of_nat i in
  let '(F, g) :=
    if (i <? 16)%nat then
      (Z.lor (Z.land B C) (Z.land (not32 B) D), iz)
    else if (i <? 32)%nat then
      (Z.lor (Z.land D B) (Z.land (not32 D) C), (5 * iz + 1) mod 16)
    else if (i <? 48)%nat then
      (Z.lxor (Z.lxor B C) D, (3 * iz + 5) mod 16)
    else
      (Z.lxor C (Z.lor B (not32 D)), (7 * iz) mod 16) in
  let F' := add32 (add32 (add32 F A) (nth i sines 0)) (nth (Z.to_nat g) M 0) in
  State D (add32 B (rotl32 F' (nth i shifts 0))) B C.

(** Four bytes, least significant first, make a word, and back. *)
Definition word_of_bytes (l : list Z) : Z :=
  fold_right (fun b acc => b + 256 * acc) 0 l.

Definition bytes_of_word (w : Z) : list Z :=
  [w mod 256; (w / 256) mod 256; (w / 65536) mod 256; (w / 16777216) mod 256].

Fixpoint words (n : nat) (l : list Z) : list Z :=
  match n with
  | O => []
  | S n' => word_of_bytes (firstn 4 l) :: words n' (skipn 4 l)
  end.

Definition block (st : state) (bytes : list Z) : state :=
  let M := words 16 bytes in
  let '(State A B C D) := fold_left (step M) (seq 0 64) st in
  State (add32 (sa st) A) (add32 (sb st) B) (add32 (sc st) C) (add32 (sd st) D).

Fixpoint blocks (n : nat) (st : state) (l : list Z) : state :=
  match n with
  | O => st
  | S n' => blocks n' (block st (firstn 64 l)) (skipn 64 l)
  end.

(** The message, one byte 0x80, zeros up to 56 modulo 64, and the bit
    length of the message on eight bytes, least significant first. *)
Definition pad (msg : list Z) : list Z :=
  let len := Z.of_nat (length msg) in
  let zeros := Z.to_nat ((55 - len) mod 64) in
  let bits := (8 * len) mod 2 ^ 64 in
  msg ++ [128] ++ repeat 0 zeros
      ++ bytes_of_word (bits mod 2 ^ 32) ++ bytes_of_word (bits / 2 ^ 32).

Definition digest (msg : list Z) : list Z :=
  let p := pad msg in
  let '(State A B C D) := blocks (length p / 64) init p in
  bytes_of_word A ++ bytes_of_word B ++ bytes_of_word C ++ bytes_of_word D.

Definition hex_digit (n : Z) : ascii :=
  nth (Z.to_nat (n mod 16)) (list_ascii_of_string "0123456789abcdef") "0"%char.

Definition hex_byte (b : Z) : list ascii := [hex_digit (b / 16); hex_digit b].

Definition hex (bytes : list Z) : string :=
  string_of_list_ascii (concat (map hex_byte bytes)).

End MD5.

(** [s.encode()]: the bytes of the string. *)
Definition encode (s : string) : list Z :=
  map (fun c => Z.of_nat (nat_of_ascii c)) (list_ascii_of_string s).

(** [md5(data).hexdigest()] *)
Definition md5_hexdigest (data : list Z) : string := MD5.hex (MD5.digest data).

(** ** Dissected packets

    A layer maps the names of its fields to their values. The capture time
    is kept as the text [packet.sniff_time.isoformat()] gives. An SSH
    packet over IPv6 has no [ip] layer. *)

Abbreviation layer := (gmap string string).

Record packet : Type := Packet {
  highest_layer : string;
  sniff_time : string;
  ip : option layer;
  tcp : option layer;
  ssh : option layer
}.

(** [packet.<lname>] *)
Definition layer_of (lname : string) (l : option layer) : res layer :=
  match l with
  | Some x => Ok x
  | None => Raise (AttributeError lname)
  end.

(** [name in layer.field_names] *)
Definition in_names (name : string) (l : layer) : bool :=
  match l !! name with Some _ => true | None => false end.

(** [layer.<name>] *)
Definition getattr (l : layer) (name : string) : res string :=
  match l !! name with
  | Some v => Ok v
  | None => Raise (AttributeError name)
  end.

Definition ip_src (p : packet) : res string := l ← layer_of "ip" (ip p); getattr l "src".
Definition ip_dst (p : packet) : res string := l ← layer_of "ip" (ip p); getattr l "dst".
Definition tcp_srcport (p : packet) : res string := l ← layer_of "tcp" (tcp p); getattr l "srcport".
Definition tcp_dstport (p : packet) : res string := l ← layer_of "tcp" (tcp p); getattr l "dstport".

(** [x = dflt] followed by [if name in layer.field_names: x = layer.<name>] *)
Definition field_or (dflt : string) (l : layer) (name : string) : res string :=
  if in_names name l then getattr l name else Ok dflt.

(** ** Constants *)

Definition HASSH_VERSION : string := "1.0".

Definition dquote : string := String (Ascii false true false false false true false false) EmptyString.

Definition csv_header : string :=
  "timestamp,sourceIp,destinationIp,sourcePort," +:+
  "destinationPort,hasshType,protocolString,hassh," +:+
  "hasshAlgorithms,kexAlgs,encAlgs,macAlgs,cmpAlgs".

(** ** The key of the banner cache: ['{}:{}_{}:{}'.format(srcip, sport, dstip, dport)] *)

Definition key_format (srcip sport dstip dport : string) : string :=
  srcip +:+ ":" +:+ sport +:+ "_" +:+ dstip +:+ ":" +:+ dport.

(** The four assignments before the key is formatted, the same text in
    [process_pcap_file], [live_capture], [client_hassh] and [server_hassh]:
    [dport] is read from [packet.tcp.srcport]. *)
Definition flow_key (p : packet) : res string :=
  srcip ← ip_src p;
  dstip ← ip_dst p;
  sport ← tcp_srcport p;
  dport ← tcp_srcport p;
  Ok (key_format srcip sport dstip dport).

(** ** event_log *)

Definition event_log (p : packet) (event : string) : res dict :=
  let event_message :=
    if String.eqb event "retransmission"
    then Some "This packet is a (suspected) retransmission"
    else None in
  let ts := sniff_time p in
  em ← match event_message with
       | Some m => Ok m
       | None => Raise (UnboundLocalError "event_message")
       end;
  sip ← ip_src p;
  dip ← ip_dst p;
  sp ← tcp_srcport p;
  dp ← tcp_dstport p;
  Ok (dict_of [("timestamp", PStr ts);
               ("eventType", PStr event);
               ("eventMessage", PStr em);
               ("sourceIp", PStr sip);
               ("destinationIp", PStr dip);
               ("sourcePort", PStr sp);
               ("destinationPort", PStr dp)]).

(** ** client_hassh and server_hassh *)

(** [protocol = None] followed by [if key in pdict: protocol = pdict[key]] *)
Definition lookup_protocol (pdict : gmap string string) (key : string) : pyval :=
  match pdict !! key with
  | Some v => PStr v
  | None => PNone
  end.

Definition client_hassh (p : packet) (pdict : gmap string string) : res dict :=
  key ← flow_key p;
  let protocol := lookup_protocol pdict key in
  sshl ← layer_of "ssh" (ssh p);
  ckex ← field_or EmptyString sshl "kex_algorithms";
  ceacts ← field_or EmptyString sshl "encryption_algorithms_client_to_server";
  cmacts ← field_or EmptyString sshl "mac_algorithms_client_to_server";
  ccacts ← field_or EmptyString sshl "compression_algorithms_client_to_server";
  clcts ← field_or EmptyString sshl "languages_client_to_server";
  clstc ← field_or EmptyString sshl "languages_server_to_client";
  ceastc ← field_or EmptyString sshl "encryption_algorithms_server_to_client";
  cmastc ← field_or EmptyString sshl "mac_algorithms_server_to_client";
  ccastc ← field_or EmptyString sshl "compression_algorithms_server_to_client";
  let hassh_str := str_join ";" [ckex; ceacts; cmacts; ccacts] in
  let hassh := md5_hexdigest (encode hassh_str) in
  sip ← ip_src p;
  dip ← ip_dst p;
  sp ← tcp_srcport p;
  dp ← tcp_dstport p;
  Ok (dict_of [("timestamp", PStr (sniff_time p));
               ("sourceIp", PStr sip);
               ("destinationIp", PStr dip);
               ("sourcePort", PStr sp);
               ("destinationPort", PStr dp);
               ("client", protocol);
               ("hassh", PStr hassh);
               ("hasshAlgorithms", PStr hassh_str);
               ("hasshVersion", PStr HASSH_VERSION);
               ("ckex", PStr ckex);
               ("ceacts", PStr ceacts);
               ("cmacts", PStr cmacts);
               ("ccacts", PStr ccacts);
               ("clcts", PStr clcts);
               ("clstc", PStr clstc);
               ("ceastc", PStr ceastc);
               ("cmastc", PStr cmastc);
               ("ccastc", PStr ccastc)]).

Definition server_hassh (p : packet) (pdict : gmap string string) : res dict :=
  key ← flow_key p;
  let protocol := lookup_protocol pdict key in
  sshl ← layer_of "ssh" (ssh p);
  skex ← field_or EmptyString sshl "kex_algorithms";
  seastc ← field_or EmptyString sshl "encryption_algorithms_server_to_client";
  smastc ← field_or EmptyString sshl "mac_algorithms_server_to_client";
  scastc ← field_or EmptyString sshl "compression_algorithms_server_to_client";
  slcts ← field_or EmptyString sshl "languages_client_to_server";
  slstc ← field_or EmptyString sshl "languages_server_to_client";
  seacts ← field_or EmptyString sshl "encryption_algorithms_client_to_server";
  smacts ← field_or EmptyString sshl "mac_algorithms_client_to_server";
  scacts ← field_or EmptyString sshl "compression_algorithms_client_to_server";
  let hasshs_str := str_join ";" [skex; seastc; smastc; scastc] in
  let hasshs := md5_hexdigest (encode hasshs_str) in
  sip ← ip_src p;
  dip ← ip_dst p;
  sp ← tcp_srcport p;
  dp ← tcp_dstport p;
  Ok (dict_of [("timestamp", PStr (sniff_time p));
               ("sourceIp", PStr sip);
               ("destinationIp", PStr dip);
               ("sourcePort", PStr sp);
               ("destinationPort", PStr dp);
               ("server", protocol);
               ("hasshServer", PStr hasshs);
               ("hasshServerAlgorithms", PStr hasshs_str);
               ("hasshVersion", PStr HASSH_VERSION);
               ("skex", PStr skex);
               ("seastc", PStr seastc);
               ("smastc", PStr smastc);
               ("scastc", PStr scastc);
               ("slcts", PStr slcts);
               ("slstc", PStr slstc);
               ("seacts", PStr seacts);
               ("smacts", PStr smacts);
               ("scacts", PStr scacts)]).

(** ** csv_logging

    The eight local variables that only the two branches assign; reading
    one that was not assigned raises [UnboundLocalError]. *)

Record csv_locals : Type := CsvLocals {
  hasshType : option string;
  kexAlgs : option pyval;
  encAlgs : option pyval;
  macAlgs : option pyval;
  cmpAlgs : option pyval;
  hassh : option pyval;
  hasshAlgorithms : option pyval;
  protocolString : option pyval
}.

Definition unassigned : csv_locals :=
  CsvLocals None None None None None None None None.

Definition local {A} (name : string) (v : option A) : res A :=
  match v with
  | Some x => Ok x
  | None => Raise (UnboundLocalError name)
  end.

Definition csv_branches (record : dict) : res csv_locals :=
  if dict_in "hassh" record then
    k ← dict_get record "ckex";
    e ← dict_get record "ceacts";
    m ← dict_get record "cmacts";
    c ← dict_get record "ccacts";
    h ← dict_get record "hassh";
    hv ← dict_get record "hasshAlgorithms";
    pr ← dict_get record "client";
    Ok (CsvLocals (Some "client") (Some k) (Some e) (Some m) (Some c)
                  (Some h) (Some hv) (Some pr))
  else if dict_in "hasshServer" record then
    k ← dict_get record "skex";
    e ← dict_get record "seastc";
    m ← dict_get record "smastc";
    c ← dict_get record "scastc";
    h ← dict_get record "hasshServer";
    hv ← dict_get record "hasshServerAlgorithms";
    pr ← dict_get record "server";
    Ok (CsvLocals (Some "server") (Some k) (Some e) (Some m) (Some c)
                  (Some h) (Some hv) (Some pr))
  else Ok unassigned.

Definition quoted (s : string) : string := dquote +:+ s +:+ dquote.

(** ['{ts},{si},{di},{sp},{dp},{t},"{p}",{h},"{hv}","{k}","{e}","{m}","{c}"'] *)
Definition csv_format (ts si di sp dp : pyval) (t : string) (p h hv k e m c : pyval) : string :=
  str_join "," [py_str ts; py_str si; py_str di; py_str sp; py_str dp; t;
                quoted (py_str p); py_str h; quoted (py_str hv);
                quoted (py_str k); quoted (py_str e); quoted (py_str m);
                quoted (py_str c)].

Definition csv_logging (record : dict) : res string :=
  vars ← csv_branches record;
  ts ← dict_get record "timestamp";
  si ← dict_get record "sourceIp";
  di ← dict_get record "destinationIp";
  sp ← dict_get record "sourcePort";
  dp ← dict_get record "destinationPort";
  t ← local "hasshType" (hasshType vars);
  p ← local "protocolString" (protocolString vars);
  h ← local "hassh" (hassh vars);
  hv ← local "hasshAlgorithms" (hasshAlgorithms vars);
  k ← local "kexAlgs" (kexAlgs vars);
  e ← local "encAlgs" (encAlgs vars);
  m ← local "macAlgs" (macAlgs vars);
  c ← local "cmpAlgs" (cmpAlgs vars);
  Ok (csv_format ts si di sp dp t p h hv k e m c).

(** ** State and exceptions of the loops

    [M S A] is a computation on a mutable state [S] that returns an [A] or
    raises; the state it leaves is the one at the raise. *)

Definition M (S A : Type) : Type := S -> S * res A.

Global Instance M_ret {S} : MRet (M S) := fun A a s => (s, Ok a).
Global Instance M_bind {S} : MBind (M S) := fun A B f m s =>
  match m s with
  | (s', Ok a) => f a s'
  | (s', Raise e) => (s', Raise e)
  end.

Definition lift {S A} (r : res A) : M S A := fun s => (s, r).

(** [try: body except Exception as e: handler(e)] *)
Definition try_except {S} (body : M S unit) (handler : exn -> M S unit) : M S unit :=
  fun s =>
    match body s with
    | (s', Ok tt) => (s', Ok tt)
    | (s', Raise e) => handler e s'
    end.

(** [for x in l: body(x)] *)
Fixpoint for_each {S A} (body : A -> M S unit) (l : list A) : M S unit :=
  match l with
  | [] => mret tt
  | x :: rest => body x ;; for_each body rest
  end.

(** A line written through [logger.info]: [json.dumps(record)] is kept as
    the record it serialises, any other message as its text. *)
Inductive logline : Type :=
  | JsonLine (record : dict)
  | TextLine (text : string).

(** What [print] writes: the summary block of a record (its text is a
    function of the record and, in replay, of the name of the capture
    file), the error line of [process_pcap_file] and the last words of
    [live_capture]. *)
Inductive console : Type :=
  | ClientSummary (pcap : option string) (record : dict)
  | ServerSummary (pcap : option string) (record : dict)
  | ErrorLine (e : exn)
  | Exiting.

(** The variables of the loops and the two sinks. *)
Record world : Type := World {
  protocol_dict : gmap string string;
  results : list dict;
  logfile : list logline;
  stdout : list console
}.

Definition set_protocol (key protocol : string) : M world unit := fun w =>
  (World (<[key := protocol]> (protocol_dict w)) (results w) (logfile w) (stdout w), Ok tt).

Definition results_append (r : dict) : M world unit := fun w =>
  (World (protocol_dict w) (results w ++ [r]) (logfile w) (stdout w), Ok tt).

Definition logger_info (l : logline) : M world unit := fun w =>
  (World (protocol_dict w) (results w) (logfile w ++ [l]) (stdout w), Ok tt).

Definition print (c : console) : M world unit := fun w =>
  (World (protocol_dict w) (results w) (logfile w) (stdout w ++ [c]), Ok tt).

Definition get_protocol_dict : M world (gmap string string) := fun w =>
  (w, Ok (protocol_dict w)).

Definition get_results : M world (list dict) := fun w => (w, Ok (results w)).

(** [results = list()] and [protocol_dict = {}] *)
Definition new_results : M world unit := fun w =>
  (World (protocol_dict w) [] (logfile w) (stdout w), Ok tt).

Definition new_protocol_dict : M world unit := fun w =>
  (World ∅ (results w) (logfile w) (stdout w), Ok tt).

(** ** The head of both loop bodies

    "Extract SSH Protocol string and correlate with KEXINIT msg": the
    banner of a packet that has one is stored under the key of the
    packet. *)
Definition note_protocol (p : packet) (sshl : layer) : M world unit :=
  if in_names "protocol" sshl then
    protocol ← lift (getattr sshl "protocol");
    key ← lift (flow_key p);
    set_protocol key protocol
  else mret tt.

(** [(fprint == role or fprint == 'all') and int(packet.tcp.srcport) <cmp>
    int(packet.tcp.dstport)]: the ports are read and parsed only when the
    role filter lets the role through. *)
Definition port_test (role fprint : string) (cmp : Z -> Z -> bool) (p : packet) : res bool :=
  if String.eqb fprint role || String.eqb fprint "all" then
    sp ← tcp_srcport p;
    a ← py_int sp;
    dp ← tcp_dstport p;
    b ← py_int dp;
    Ok (cmp a b)
  else Ok false.

Definition retransmitted (tcpl : layer) : bool :=
  in_names "analysis_retransmission" tcpl
  || in_names "analysis_spurious_retransmission" tcpl.

(** ** process_pcap_file *)

Definition replay_body (pcap fprint : string) (oprint : bool) (p : packet) : M world unit :=
  if negb (String.eqb (highest_layer p) "SSH") then mret tt else
  sshl ← lift (layer_of "ssh" (ssh p));
  note_protocol p sshl ;;
  if negb (in_names "message_code" sshl) then mret tt else
  code ← lift (getattr sshl "message_code");
  if negb (String.eqb code "20") then mret tt else
  tcpl ← lift (layer_of "tcp" (tcp p));
  if retransmitted tcpl then
    event ← lift (event_log p "retransmission");
    results_append event
  else
    is_client ← lift (port_test "client" fprint Z.gtb p);
    if (is_client : bool) then
      pdict ← get_protocol_dict;
      record ← lift (client_hassh p pdict);
      results_append record ;;
      if negb oprint then mret tt else print (ClientSummary (Some pcap) record)
    else
      is_server ← lift (port_test "server" fprint Z.ltb p);
      if (is_server : bool) then
        pdict ← get_protocol_dict;
        record ← lift (server_hassh p pdict);
        results_append record ;;
        if negb oprint then mret tt else print (ServerSummary (Some pcap) record)
      else mret tt.

(** [cap] is the sequence of the packets of the capture file. The [try]
    encloses the whole [for] loop. *)
Definition process_pcap_file (cap : list packet) (pcap fprint : string) (oprint : bool)
  : M world (list dict) :=
  new_results ;;
  new_protocol_dict ;;
  try_except (for_each (replay_body pcap fprint oprint) cap)
             (fun e => print (ErrorLine e)) ;;
  get_results.

(** ** live_capture *)

(** [if lf == 'json': logger.info(json.dumps(record))
     elif lf == 'csv': logger.info(csv_logging(record))] *)
Definition log_record (lf : pyval) (record : dict) : M world unit :=
  if decide (lf = PStr "json") then logger_info (JsonLine record)
  else if decide (lf = PStr "csv") then
    csv_record ← lift (csv_logging record);
    logger_info (TextLine csv_record)
  else mret tt.

Definition live_body (fprint : string) (lf : pyval) (oprint : bool) (p : packet) : M world unit :=
  if negb (String.eqb (highest_layer p) "SSH") then mret tt else
  sshl ← lift (layer_of "ssh" (ssh p));
  note_protocol p sshl ;;
  if negb (in_names "message_code" sshl) then mret tt else
  code ← lift (getattr sshl "message_code");
  if negb (String.eqb code "20") then mret tt else
  tcpl ← lift (layer_of "tcp" (tcp p));
  if retransmitted tcpl then
    event ← lift (event_log p "retransmission");
    if decide (lf = PStr "json") then logger_info (JsonLine event) else mret tt
  else
    is_client ← lift (port_test "client" fprint Z.gtb p);
    if (is_client : bool) then
      pdict ← get_protocol_dict;
      record ← lift (client_hassh p pdict);
      log_record lf record ;;
      if negb oprint then mret tt else print (ClientSummary None record)
    else
      is_server ← lift (port_test "server" fprint Z.ltb p);
      if (is_server : bool) then
        pdict ← get_protocol_dict;
        record ← lift (server_hassh p pdict);
        log_record lf record ;;
        if negb oprint then mret tt else print (ServerSummary None record)
      else mret tt.

(** [sniffed] is the sequence of the packets that arrive before the
    operator interrupts the capture; the interrupt is the only exception
    the function handles, any other leaves it. *)
Definition live_capture (sniffed : list packet) (fprint : string) (lf : pyval) (oprint : bool)
  : M world unit :=
  new_protocol_dict ;;
  (if decide (lf = PStr "csv") then logger_info (TextLine csv_header) else mret tt) ;;
  for_each (live_body fprint lf oprint) sniffed ;;
  print Exiting.

(** ** main, for one capture file ([-r]) *)

Definition main_read_file (cap : list packet) (pcap fprint : string) (log_format : pyval)
    (oprint : bool) : M world unit :=
  output ← process_pcap_file cap pcap fprint oprint;
  if decide (log_format = PStr "json") then
    for_each (fun record => logger_info (JsonLine record)) output
  else if decide (log_format = PStr "csv") then
    logger_info (TextLine csv_header) ;;
    for_each (fun record =>
                csv_record ← lift (csv_logging record);
                logger_info (TextLine csv_record)) output
  else mret tt.

Definition start : world := World ∅ [] [] [].

(** ** main, for a directory of capture files ([-d])

    An entry of [os.scandir]: its name, its path, whether it is a
    directory, and the packets of the capture the path names. *)

Record dir_entry : Type := DirEntry {
  entry_name : string;
  entry_path : string;
  entry_is_dir : bool;
  entry_packets : list packet
}.

(** [s.startswith(pre)] and [s.endswith(suf)] *)
Definition startswith (s pre : string) : bool := String.prefix pre s.

Definition endswith (s suf : string) : bool :=
  let n := String.length s in
  let m := String.length suf in
  Nat.leb m n && String.eqb (String.substring (n - m) m s) suf.

(** The condition of the list comprehension over the entries. *)
Definition is_capture_file (f : dir_entry) : bool :=
  negb (startswith (entry_name f) ".") && negb (entry_is_dir f)
  && (endswith (entry_name f) ".pcap" || endswith (entry_name f) ".pcapng"
      || endswith (entry_name f) ".cap").

(** The body of the loop over the files. *)
Definition directory_file (fprint : string) (log_format : pyval) (oprint : bool)
    (file : dir_entry) : M world unit :=
  output ← process_pcap_file (entry_packets file) (entry_path file) fprint oprint;
  if decide (log_format = PStr "json") then
    for_each (fun record => logger_info (JsonLine record)) output
  else if decide (log_format = PStr "csv") then
    for_each (fun record =>
                csv_record ← lift (csv_logging record);
                logger_info (TextLine csv_record)) output
  else mret tt.

Definition main_read_directory (scandir : list dir_entry) (fprint : string)
    (log_format : pyval) (oprint : bool) : M world unit :=
  let files := List.filter is_capture_file scandir in
  (if decide (log_format = PStr "csv") then logger_info (TextLine csv_header) else mret tt) ;;
  for_each (directory_file fprint log_format oprint) files.

(** ** Sample packets *)

Module Sample.

Definition mk_layer (l : list (string * string)) : layer := list_to_map l.

Definition ip4 (src dst : string) : option layer :=
  Some (mk_layer [("src", src); ("dst", dst)]).

Definition ports (sport dport : string) : option layer :=
  Some (mk_layer [("srcport", sport); ("dstport", dport)]).

Definition ports_retransmitted (sport dport : string) : option layer :=
  Some (mk_layer [("srcport", sport); ("dstport", dport);
                  ("analysis_retransmission", EmptyString)]).

Definition kexinit_fields : layer :=
  mk_layer [("message_code", "20");
            ("kex_algorithms", "curve25519-sha256");
            ("encryption_algorithms_client_to_server", "aes128-ctr");
            ("mac_algorithms_client_to_server", "hmac-sha2-256");
            ("compression_algorithms_client_to_server", "none");
            ("encryption_algorithms_server_to_client", "aes256-ctr");
            ("mac_algorithms_server_to_client", "hmac-sha1");
            ("compression_algorithms_server_to_client", "zlib")].

Definition t0 : string := "2018-09-01T10:00:00.000000".

(** The client 10.0.0.1:51000 talks to the server 10.0.0.2:22. *)
Definition banner : packet :=
  Packet "SSH" t0 (ip4 "10.0.0.1" "10.0.0.2") (ports "51000" "22")
         (Some (mk_layer [("protocol", "SSH-2.0-OpenSSH_8.1")])).

Definition client_kexinit : packet :=
  Packet "SSH" t0 (ip4 "10.0.0.1" "10.0.0.2") (ports "51000" "22") (Some kexinit_fields).

Definition server_kexinit : packet :=
  Packet "SSH" t0 (ip4 "10.0.0.2" "10.0.0.1") (ports "22" "51000") (Some kexinit_fields).

Definition bare_kexinit : packet :=
  Packet "SSH" t0 (ip4 "10.0.0.1" "10.0.0.2") (ports "51000" "22")
         (Some (mk_layer [("message_code", "20")])).

Definition retransmitted_kexinit : packet :=
  Packet "SSH" t0 (ip4 "10.0.0.1" "10.0.0.2") (ports_retransmitted "51000" "22")
         (Some kexinit_fields).

Definition equal_ports_kexinit : packet :=
  Packet "SSH" t0 (ip4 "10.0.0.1" "10.0.0.2") (ports "22" "22") (Some kexinit_fields).

(** The same client and client port, another port of the server. *)
Definition banner_other_port : packet :=
  Packet "SSH" t0 (ip4 "10.0.0.1" "10.0.0.2") (ports "51000" "2222")
         (Some (mk_layer [("protocol", "SSH-2.0-libssh_0.9.6")])).

(** A KEXINIT carried over IPv6: the packet has no [ip] layer. *)
Definition ipv6_kexinit : packet :=
  Packet "SSH" t0 None (ports "51000" "22") (Some kexinit_fields).

(** The record of [client_kexinit] when the cache is empty. *)
Definition client_record : dict :=
  dict_of [("timestamp", PStr t0);
           ("sourceIp", PStr "10.0.0.1");
           ("destinationIp", PStr "10.0.0.2");
           ("sourcePort", PStr "51000");
           ("destinationPort", PStr "22");
           ("client", PNone);
           ("hassh", PStr "e97d07603350d1111ec2b64bf25413c9");
           ("hasshAlgorithms", PStr "curve25519-sha256;aes128-ctr;hmac-sha2-256;none");
           ("hasshVersion", PStr "1.0");
           ("ckex", PStr "curve25519-sha256");
           ("ceacts", PStr "aes128-ctr");
           ("cmacts", PStr "hmac-sha2-256");
           ("ccacts", PStr "none");
           ("clcts", PStr EmptyString);
           ("clstc", PStr EmptyString);
           ("ceastc", PStr "aes256-ctr");
           ("cmastc", PStr "hmac-sha1");
           ("ccastc", PStr "zlib")].

(** The event of [retransmitted_kexinit]. *)
Definition retransmission_event : dict :=
  dict_of [("timestamp", PStr t0);
           ("eventType", PStr "retransmission");
           ("eventMessage", PStr "This packet is a (suspected) retransmission");
           ("sourceIp", PStr "10.0.0.1");
           ("destinationIp", PStr "10.0.0.2");
           ("sourcePort", PStr "51000");
           ("destinationPort", PStr "22")].

(** The row of [client_record]. *)
Definition client_row : string :=
  str_join "," [t0; "10.0.0.1"; "10.0.0.2"; "51000"; "22"; "client";
                quoted "None"; "e97d07603350d1111ec2b64bf25413c9";
                quoted "curve25519-sha256;aes128-ctr;hmac-sha2-256;none";
                quoted "curve25519-sha256"; quoted "aes128-ctr";
                quoted "hmac-sha2-256"; quoted "none"].

End Sample.

(** ** Vocabulary of the properties *)

Inductive role : Type := Client | Server.

Global Instance role_eq_dec : EqDecision role.
Proof. solve_decision. Defined.

(** The kind of a record, by the keys [csv_logging] tests. *)
Definition role_of (record : dict) : option role :=
  if dict_in "hassh" record then Some Client
  else if dict_in "hasshServer" record then Some Server
  else None.

Definition is_fingerprint (record : dict) : bool :=
  dict_in "hassh" record || dict_in "hasshServer" record.

Definition is_event (record : dict) : bool := dict_in "eventType" record.

Definition fingerprint (ro : role) : packet -> gmap string string -> res dict :=
  match ro with
  | Client => client_hassh
  | Server => server_hassh
  end.

Definition role_name (ro : role) : string :=
  match ro with Client => "client" | Server => "server" end.

(** The keys of a fingerprint record of each role: digest, input string,
    banner. *)
Definition digest_key (ro : role) : string :=
  match ro with Client => "hassh" | Server => "hasshServer" end.

Definition input_key (ro : role) : string :=
  match ro with Client => "hasshAlgorithms" | Server => "hasshServerAlgorithms" end.

Definition protocol_key (ro : role) : string :=
  match ro with Client => "client" | Server => "server" end.

(** The four fields of the own direction of a role, in the order of the
    fingerprint: the key of the record and the SSH field it is read from. *)
Definition own_fields (ro : role) : list (string * string) :=
  match ro with
  | Client => [("ckex", "kex_algorithms");
               ("ceacts", "encryption_algorithms_client_to_server");
               ("cmacts", "mac_algorithms_client_to_server");
               ("ccacts", "compression_algorithms_client_to_server")]
  | Server => [("skex", "kex_algorithms");
               ("seastc", "encryption_algorithms_server_to_client");
               ("smastc", "mac_algorithms_server_to_client");
               ("scastc", "compression_algorithms_server_to_client")]
  end.

(** The two language lists and the three lists of the other direction. *)
Definition audit_fields (ro : role) : list (string * string) :=
  match ro with
  | Client => [("clcts", "languages_client_to_server");
               ("clstc", "languages_server_to_client");
               ("ceastc", "encryption_algorithms_server_to_client");
               ("cmastc", "mac_algorithms_server_to_client");
               ("ccastc", "compression_algorithms_server_to_client")]
  | Server => [("slcts", "languages_client_to_server");
               ("slstc", "languages_server_to_client");
               ("seacts", "encryption_algorithms_client_to_server");
               ("smacts", "mac_algorithms_client_to_server");
               ("scacts", "compression_algorithms_client_to_server")]
  end.

(** The value of an SSH field, the empty string when the layer has none. *)
Definition value_or_empty (sshl : layer) (name : string) : string :=
  match sshl !! name with
  | Some v => v
  | None => EmptyString
  end.

Definition is_lower_hex (c : ascii) : bool :=
  let n := nat_of_ascii c in
  (Nat.leb 48 n && Nat.leb n 57) || (Nat.leb 97 n && Nat.leb n 102).

(** The packet carries its two addresses and its two ports. *)
Record addressed (p : packet) (sip dip sp dp : string) : Prop := Addressed {
  addr_src : ip_src p = Ok sip;
  addr_dst : ip_dst p = Ok dip;
  addr_sport : tcp_srcport p = Ok sp;
  addr_dport : tcp_dstport p = Ok dp
}.

(** The packet passes the two filters of the loops: its highest layer is
    SSH and its SSH message code is 20 (SSH_MSG_KEXINIT). *)
Record kexinit (p : packet) (sshl tcpl : layer) : Prop := Kexinit {
  kex_highest : highest_layer p = "SSH";
  kex_ssh : ssh p = Some sshl;
  kex_code : sshl !! "message_code" = Some "20";
  kex_tcp : tcp p = Some tcpl
}.

Definition passes_filter (p : packet) : bool :=
  String.eqb (highest_layer p) "SSH" &&
  match ssh p with
  | Some sshl => bool_decide (sshl !! "message_code" = Some "20")
  | None => false
  end.

(** The direction rule in the words of the specification. *)
Definition direction (sport dport : Z) : option role :=
  if sport >? dport then Some Client
  else if sport <? dport then Some Server
  else None.

(** The flow key in the words of the specification: the four values
    (sourceIP, sourcePort, destinationIP, destinationPort) of the packet. *)
Definition four_tuple (p : packet) : res (string * string * string * string) :=
  sip ← ip_src p;
  sp ← tcp_srcport p;
  dip ← ip_dst p;
  dp ← tcp_dstport p;
  Ok (sip, sp, dip, dp).

(** Bounded replay in the words of the specification: a fault is caught
    and logged at the packet it occurs in, and the replay goes on with
    the next packet. *)
Definition replay_recovering (cap : list packet) (pcap fprint : string) (oprint : bool)
  : M world (list dict) :=
  new_results ;;
  new_protocol_dict ;;
  for_each (fun p => try_except (replay_body pcap fprint oprint p)
                                (fun e => print (ErrorLine e))) cap ;;
  get_results.

(** The world after the head of a loop body on a packet of key [key]: the
    banner of the packet, when it has one, is stored under the key. *)
Definition noted (sshl : layer) (key : string) (w : world) : world :=
  match sshl !! "protocol" with
  | Some banner =>
      World (<[key := banner]> (protocol_dict w)) (results w) (logfile w) (stdout w)
  | None => w
  end.

(** The summary block of a record of each role. *)
Definition summary (ro : role) : option string -> dict -> console :=
  match ro with
  | Client => ClientSummary
  | Server => ServerSummary
  end.

(** The list a run of [process_pcap_file] returns. *)
Definition returned (x : world * res (list dict)) : list dict :=
  match x.2 with
  | Ok l => l
  | Raise _ => []
  end.

(** The kind of a logged line: the role of the record of a JSON line
    ([None] for an event), or a line of text. *)
Inductive line_kind : Type :=
  | JsonOf (ro : option role)
  | Text.

Definition kind_of (l : logline) : line_kind :=
  match l with
  | JsonLine record => JsonOf (role_of record)
  | TextLine _ => Text
  end.

(** The value a returned record has under a key. *)
Definition field_of (r : res dict) (k : string) : option pyval :=
  match r with
  | Ok record => record !! k
  | Raise _ => None
  end.

(** ** Vocabulary of the further properties *)

(** The role filter lets a role through. *)
Definition admits (fprint : string) (ro : role) : bool :=
  String.eqb fprint (role_name ro) || String.eqb fprint "all".

(** What a packet does to the banner cache: an SSH packet that has a
    protocol field and whose key can be built stores its banner under the
    key. *)
Definition banner_update (p : packet) (pdict : gmap string string) : gmap string string :=
  if String.eqb (highest_layer p) "SSH" then
    match ssh p with
    | Some sshl =>
        match sshl !! "protocol", flow_key p with
        | Some banner, Ok key => <[key := banner]> pdict
        | _, _ => pdict
        end
    | None => pdict
    end
  else pdict.

(** A world with a banner cache and nothing else. *)
Definition bare (pdict : gmap string string) : world := World pdict [] [] [].

(** A world in front of what a step adds to its results and sinks. *)
Definition extend (w d : world) : world :=
  World (protocol_dict d) (results w ++ results d) (logfile w ++ logfile d)
        (stdout w ++ stdout d).

(** The lines a log format gives for a list of records: every record for
    JSON, the rows [csv_logging] returns for CSV, nothing otherwise. *)
Definition csv_line (record : dict) : option logline :=
  match csv_logging record with
  | Ok row => Some (TextLine row)
  | Raise _ => None
  end.

Definition log_lines (lf : pyval) (records : list dict) : list logline :=
  if decide (lf = PStr "json") then map JsonLine records
  else if decide (lf = PStr "csv") then omap csv_line records
  else [].

Definition header_lines (lf : pyval) : list logline :=
  if decide (lf = PStr "csv") then [TextLine csv_header] else [].

(** What a packet contributes under a role filter and a banner cache: the
    records the replay body adds, and whether it raises, read off a run of
    the body on a world with nothing but the cache. *)
Definition contribution (fprint : string) (p : packet) (pdict : gmap string string)
  : list dict * res unit :=
  let '(d, r) := replay_body EmptyString fprint false p (bare pdict) in
  (results d, r).

(** The summary blocks printed for a list of records when printing is on:
    one for each fingerprint record. *)
Definition summary_of (pcap : option string) (record : dict) : option console :=
  match role_of record with
  | Some ro => Some (summary ro pcap record)
  | None => None
  end.

Definition summaries (pcap : option string) (oprint : bool) (records : list dict)
  : list console :=
  if oprint then omap (summary_of pcap) records else [].

(** The run of a loop over the packets of a capture, from a banner cache:
    the cache at the end, the records contributed in order, and the
    exception of the first packet at which the body raises, where the run
    ends. *)
Fixpoint trace (fprint : string) (cap : list packet) (pdict : gmap string string)
  : gmap string string * list dict * res unit :=
  match cap with
  | [] => (pdict, [], Ok tt)
  | p :: rest =>
      match contribution fprint p pdict with
      | (records, Ok _) =>
          let '(pdict', records', r) := trace fprint rest (banner_update p pdict) in
          (pdict', (records ++ records')%list, r)
      | (records, Raise e) => (banner_update p pdict, records, Raise e)
      end
  end.

Definition trace_records (fprint : string) (cap : list packet) : list dict :=
  (trace fprint cap ∅).1.2.

(** The records of a list that come before its first event. *)
Fixpoint before_event (records : list dict) : list dict :=
  match records with
  | [] => []
  | record :: rest => if is_event record then [] else record :: before_event rest
  end.

(** A record one of the three builders returned. *)
Definition built (record : dict) : Prop :=
  (exists p, event_log p "retransmission" = Ok record)
  \/ (exists ro p pdict, fingerprint ro p pdict = Ok record).

(** The banner a packet stores and the key it stores it under, if any. *)
Definition banner_of (p : packet) : option (string * string) :=
  if String.eqb (highest_layer p) "SSH" then
    match ssh p with
    | Some sshl =>
        match sshl !! "protocol", flow_key p with
        | Some banner, Ok key => Some (key, banner)
        | _, _ => None
        end
    | None => None
    end
  else None.

(** The banner of the last packet of a capture that stores one under a
    key. *)
Fixpoint last_banner (key : string) (cap : list packet) : option string :=
  match cap with
  | [] => None
  | p :: rest =>
      match last_banner key rest with
      | Some banner => Some banner
      | None =>
          match banner_of p with
          | Some (k, banner) => if String.eqb k key then Some banner else None
          | None => None
          end
      end
  end.

(** The records of the capture files of a directory, each file replayed on
    its own, in the order of the entries. *)
Definition directory_records (scandir : list dir_entry) (fprint : string) : list dict :=
  flat_map (fun file =>
              returned (process_pcap_file (entry_packets file) (entry_path file)
                                          fprint false start))
           (List.filter is_capture_file scandir).

(** The keys [csv_logging] reads. *)
Definition csv_keys : list string :=
  ["hassh"; "hasshServer";
   "timestamp"; "sourceIp"; "destinationIp"; "sourcePort"; "destinationPort";
   "ckex"; "ceacts"; "cmacts"; "ccacts"; "hasshAlgorithms"; "client";
   "skex"; "seastc"; "smastc"; "scastc"; "hasshServerAlgorithms"; "server"].

(** The exception names a missing layer or field. *)
Definition attribute_error (e : exn) : Prop := exists name, e = AttributeError name.

(** More sample packets. *)
Module Sample2.

(** A client KEXINIT of another flow, at another time, with the lists of
    [Sample.client_kexinit] from client to server and other lists from
    server to client. *)
Definition other_client_kexinit : packet :=
  Packet "SSH" "2019-01-01T00:00:00.000000"
         (Sample.ip4 "192.168.1.7" "192.168.1.1") (Sample.ports "40022" "2222")
         (Some (Sample.mk_layer
                  [("message_code", "20");
                   ("kex_algorithms", "curve25519-sha256");
                   ("encryption_algorithms_client_to_server", "aes128-ctr");
                   ("mac_algorithms_client_to_server", "hmac-sha2-256");
                   ("compression_algorithms_client_to_server", "none");
                   ("encryption_algorithms_server_to_client", "chacha20-poly1305");
                   ("languages_client_to_server", "en")])).

(** A directory: a hidden capture, a capture with a retransmitted KEXINIT,
    a capture with a client KEXINIT, a text file and a sub-directory. *)
Definition directory : list dir_entry :=
  [DirEntry ".old.pcap" "caps/.old.pcap" false [Sample.client_kexinit];
   DirEntry "a.pcap" "caps/a.pcap" false [Sample.retransmitted_kexinit];
   DirEntry "b.cap" "caps/b.cap" false [Sample.client_kexinit];
   DirEntry "notes.txt" "caps/notes.txt" false [];
   DirEntry "more.pcap" "caps/more.pcap" true []].

(** A KEXINIT carried over IPv6 and flagged as retransmitted: the packet
    has no [ip] layer, and its TCP layer has [analysis_retransmission]. *)
Definition ipv6_retransmitted_kexinit : packet :=
  Packet "SSH" Sample.t0 None (Sample.ports_retransmitted "51000" "22")
         (Some Sample.kexinit_fields).

End Sample2.

(** * Properties *)

(** ** Test vectors of the digest and of [int] *)
Example md5_empty : md5_hexdigest (encode EmptyString) = "d41d8cd98f00b204e9800998ecf8427e".
Proof. vm_compute. reflexivity. Qed.

Example md5_abc : md5_hexdigest (encode "abc") = "900150983cd24fb0d6963f7d28e17f72".
Proof. vm_compute. reflexivity. Qed.

Example md5_two_blocks :
  md5_hexdigest (encode "12345678901234567890123456789012345678901234567890123456789012345678901234567890")
  = "57edf4a22be3c955ac49da2e2107b67a".
Proof. vm_compute. reflexivity. Qed.

Example py_int_examples :
  py_int "2222" = Ok 2222 /\ py_int " 22 " = Ok 22 /\ py_int "-1_0" = Ok (-10)
  /\ py_int "22a" = Raise (ValueError "22a") /\ py_int EmptyString = Raise (ValueError EmptyString)
  /\ py_int "_1" = Raise (ValueError "_1") /\ py_int "1__0" = Raise (ValueError "1__0").
Proof. vm_compute. repeat split; reflexivity. Qed.

(** ** The error monad and the field accessors *)

Lemma field_or_eq (dflt : string) (l : layer) (name : string) :
  field_or dflt l name = Ok (match l !! name with Some v => v | None => dflt end).
Proof.
  unfold field_or, in_names, getattr. destruct (l !! name); reflexivity.
Qed.

Lemma layer_of_Ok (lname : string) (ol : option layer) (l : layer) :
  layer_of lname ol = Ok l <-> ol = Some l.
Proof.
  destruct ol; simpl; split; intros H; try discriminate; congruence.
Qed.

Lemma in_names_true (name : string) (l : layer) (v : string) :
  l !! name = Some v -> in_names name l = true.
Proof. unfold in_names. intros ->. reflexivity. Qed.

Lemma getattr_Ok (name : string) (l : layer) (v : string) :
  l !! name = Some v -> getattr l name = Ok v.
Proof. unfold getattr. intros ->. reflexivity. Qed.

(** Two dicts with the same items are the same dict: a returned record is
    compared with an expected one through its items. *)
Lemma returns_record (r : res dict) (d : dict) :
  match r with Ok m => map_to_list m | Raise _ => [] end = map_to_list d ->
  is_ok r = true ->
  r = Ok d.
Proof.
  destruct r as [m | e]; simpl; intros Hitems Hok; [| discriminate Hok].
  f_equal. rewrite <- (list_to_map_to_list m), <- (list_to_map_to_list d).
  rewrite Hitems. reflexivity.
Qed.

Lemma flow_key_addressed (p : packet) (sip dip sp dp : string) :
  addressed p sip dip sp dp -> flow_key p = Ok (key_format sip sp dip sp).
Proof.
  intros [Hs Hd Hsp _]. unfold flow_key. rewrite Hs, Hd, Hsp. reflexivity.
Qed.

(** Peel the binds of a hypothesis [... = Ok _] of the error monad. *)
Ltac peel H :=
  repeat
    (match type of H with
     | mbind _ (field_or _ _ _) = _ =>
         rewrite field_or_eq in H; cbn [mbind res_bind] in H
     | mbind _ ?m = _ =>
         let E := fresh "E" in
         destruct m eqn:E; cbn [mbind res_bind] in H; [| discriminate H]
     end).

(** ** The shape of a digest *)

Lemma digest_length (msg : list Z) : length (MD5.digest msg) = 16%nat.
Proof.
  unfold MD5.digest.
  destruct (MD5.blocks _ MD5.init (MD5.pad msg)) as [A B C D].
  reflexivity.
Qed.

Lemma hex_digit_lower (n : Z) : is_lower_hex (MD5.hex_digit n) = true.
Proof.
  unfold MD5.hex_digit.
  assert (Hn : 0 <= n mod 16 < 16) by (apply Z.mod_pos_bound; lia).
  assert (Hc : (Z.to_nat (n mod 16) < 16)%nat) by lia.
  revert Hc. generalize (Z.to_nat (n mod 16)) as k. intros k Hk.
  do 16 (destruct k as [| k]; [reflexivity |]). lia.
Qed.

Lemma hex_chars (bytes : list Z) :
  length (concat (map MD5.hex_byte bytes)) = (2 * length bytes)%nat
  /\ Forall (fun c => is_lower_hex c = true) (concat (map MD5.hex_byte bytes)).
Proof.
  induction bytes as [| b bytes [IHlen IHall]]; simpl.
  - split; [reflexivity | constructor].
  - split; [rewrite IHlen; lia |].
    repeat constructor; auto using hex_digit_lower.
Qed.

Lemma string_of_list_length (l : list ascii) :
  String.length (string_of_list_ascii l) = length l.
Proof. induction l; simpl; congruence. Qed.

Lemma md5_hexdigest_shape (data : list Z) :
  String.length (md5_hexdigest data) = 32%nat
  /\ Forall (fun c => is_lower_hex c = true) (list_ascii_of_string (md5_hexdigest data)).
Proof.
  unfold md5_hexdigest, MD5.hex.
  destruct (hex_chars (MD5.digest data)) as [Hlen Hall].
  rewrite string_of_list_length, list_ascii_of_string_of_list_ascii.
  rewrite Hlen, digest_length. split; [reflexivity | exact Hall].
Qed.

(** ** C1: the fingerprint of a KEXINIT packet *)

(** C1. A fingerprint record of either role holds, under the keys of its
    own direction, the four algorithm lists of the packet (the empty string
    for a list the packet does not have); its input string is these four
    joined by semicolons in the order key exchange, encryption, MAC,
    compression; its digest is the MD5 of the bytes of the input string,
    written as 32 lower-case hexadecimal characters. *)
Theorem hassh_is_md5_of_joined_fields
    (ro : role) (p : packet) (pdict : gmap string string) (record : dict)
    (Hrec : fingerprint ro p pdict = Ok record) :
  exists sshl input,
    ssh p = Some sshl
    /\ Forall (fun kf => record !! kf.1 = Some (PStr (value_or_empty sshl kf.2)))
              (own_fields ro)
    /\ input = str_join ";" (map (fun kf => value_or_empty sshl kf.2) (own_fields ro))
    /\ (forall kex enc mac cmp,
          map (fun kf => value_or_empty sshl kf.2) (own_fields ro) = [kex; enc; mac; cmp] ->
          input = kex +:+ ";" +:+ enc +:+ ";" +:+ mac +:+ ";" +:+ cmp)
    /\ record !! input_key ro = Some (PStr input)
    /\ record !! digest_key ro = Some (PStr (md5_hexdigest (encode input)))
    /\ String.length (md5_hexdigest (encode input)) = 32%nat
    /\ Forall (fun c => is_lower_hex c = true)
              (list_ascii_of_string (md5_hexdigest (encode input))).
Proof.
  destruct ro; simpl in Hrec;
    [unfold client_hassh in Hrec | unfold server_hassh in Hrec].
  all: peel Hrec.
  all: match goal with E : layer_of _ _ = Ok ?l |- _ =>
         apply layer_of_Ok in E; exists l end.
  all: eexists; split; [eassumption |].
  all: injection Hrec as <-.
  all: split; [repeat constructor |].
  all: split; [reflexivity |].
  all: split; [intros kex enc mac cmp Heq; simpl in Heq;
               injection Heq as <- <- <- <-; reflexivity |].
  all: split; [reflexivity |].
  all: split; [reflexivity |].
  all: apply md5_hexdigest_shape.
Qed.

Lemma hassh_is_md5_of_joined_fields_witness :
  client_hassh Sample.client_kexinit ∅ = Ok Sample.client_record
  /\ exists sshl input,
       ssh Sample.client_kexinit = Some sshl
       /\ input = str_join ";" (map (fun kf => value_or_empty sshl kf.2) (own_fields Client))
       /\ Sample.client_record !! "hasshAlgorithms" = Some (PStr input)
       /\ Sample.client_record !! "hassh" = Some (PStr (md5_hexdigest (encode input))).
Proof.
  assert (Hrec : fingerprint Client Sample.client_kexinit ∅ = Ok Sample.client_record)
    by (apply returns_record; vm_compute; reflexivity).
  split; [exact Hrec |].
  destruct (hassh_is_md5_of_joined_fields Client Sample.client_kexinit ∅ _ Hrec)
    as (sshl & input & Hssh & _ & Hin & _ & Hkey & Hdig & _).
  exists sshl, input. auto.
Defined.

(** A packet with none of the four lists: the input is [";;;"] and the
    digest is the MD5 of these three bytes, for both roles. *)
Example hassh_of_empty_lists :
  field_of (client_hassh Sample.bare_kexinit ∅) "hasshAlgorithms" = Some (PStr ";;;")
  /\ field_of (client_hassh Sample.bare_kexinit ∅) "hassh"
     = Some (PStr "95420f9d932ddd22833f17b96a80bedb")
  /\ field_of (server_hassh Sample.bare_kexinit ∅) "hasshServerAlgorithms" = Some (PStr ";;;")
  /\ field_of (server_hassh Sample.bare_kexinit ∅) "hasshServer"
     = Some (PStr "95420f9d932ddd22833f17b96a80bedb").
Proof. repeat split; vm_compute; reflexivity. Qed.

(** ** C5: the key of the banner cache *)

(** Whatever the destination port of the packet, the key ends with its
    source port. *)
Lemma flow_key_inv (p : packet) (key : string) :
  flow_key p = Ok key ->
  exists sip dip sp, ip_src p = Ok sip /\ ip_dst p = Ok dip /\ tcp_srcport p = Ok sp
                     /\ key = key_format sip sp dip sp.
Proof.
  unfold flow_key. intros H. peel H.
  injection H as <-. eauto 10.
Qed.

(** C5. On the packet from 10.0.0.1:51000 to 10.0.0.2:22 the key is
    built as 10.0.0.1:51000_10.0.0.2:51000: its fourth component is the
    source port, not the destination port 22 of the packet. *)
Theorem flow_key_fourth_component_is_source_port :
  four_tuple Sample.client_kexinit = Ok ("10.0.0.1", "51000", "10.0.0.2", "22")
  /\ flow_key Sample.client_kexinit = Ok "10.0.0.1:51000_10.0.0.2:51000"
  /\ flow_key Sample.client_kexinit <> Ok (key_format "10.0.0.1" "51000" "10.0.0.2" "22").
Proof.
  split; [vm_compute; reflexivity |].
  split; [vm_compute; reflexivity |].
  vm_compute. discriminate.
Qed.

(** ** C9: absent fields *)

Ltac run_fields :=
  repeat (rewrite field_or_eq; cbn [mbind res_bind]).

Lemma fingerprint_addressed (ro : role) (p : packet) (pdict : gmap string string)
    (sshl : layer) (sip dip sp dp : string) :
  ssh p = Some sshl -> addressed p sip dip sp dp ->
  exists record,
    fingerprint ro p pdict = Ok record
    /\ Forall (fun kf => record !! kf.1 = Some (PStr (value_or_empty sshl kf.2)))
              (own_fields ro ++ audit_fields ro)
    /\ record !! protocol_key ro
       = Some (lookup_protocol pdict (key_format sip sp dip sp))
    /\ role_of record = Some ro
    /\ is_event record = false
    /\ Forall (fun k => record !! k.1 = Some (PStr k.2))
              [("timestamp", sniff_time p); ("sourceIp", sip); ("destinationIp", dip);
               ("sourcePort", sp); ("destinationPort", dp)].
Proof.
  intros Hssh Haddr.
  pose proof (flow_key_addressed _ _ _ _ _ Haddr) as Hkey.
  destruct Haddr as [Hs Hd Hsp Hdp].
  destruct ro; simpl; [unfold client_hassh | unfold server_hassh].
  all: rewrite Hkey, Hssh; cbn [mbind res_bind layer_of]; run_fields.
  all: rewrite Hs, Hd, Hsp, Hdp; cbn [mbind res_bind].
  all: eexists; split; [reflexivity |].
  all: split; [repeat constructor |].
  all: split; [reflexivity |].
  all: split; [reflexivity |].
  all: split; [reflexivity | repeat constructor].
Qed.

(** C9, as the code has it. The nine algorithm and language lists asked of
    the SSH layer never fail: whatever fields the layer has, a packet that
    carries its addresses and ports gives a record, and each of the nine
    is a string, the empty one when the packet does not have the field.
    The protocol field is the banner stored under the key of the packet
    and [None] when there is none. *)
Theorem absent_lists_default_to_empty
    (ro : role) (p : packet) (pdict : gmap string string)
    (sshl : layer) (sip dip sp dp : string)
    (Hssh : ssh p = Some sshl) (Haddr : addressed p sip dip sp dp) :
  exists record,
    fingerprint ro p pdict = Ok record
    /\ Forall (fun kf => record !! kf.1 = Some (PStr (value_or_empty sshl kf.2)))
              (own_fields ro ++ audit_fields ro)
    /\ (forall kf : string * string, kf ∈ (own_fields ro ++ audit_fields ro)%list ->
          sshl !! kf.2 = None -> record !! kf.1 = Some (PStr EmptyString))
    /\ (forall banner, pdict !! key_format sip sp dip sp = Some banner ->
          record !! protocol_key ro = Some (PStr banner))
    /\ (pdict !! key_format sip sp dip sp = None ->
          record !! protocol_key ro = Some PNone).
Proof.
  destruct (fingerprint_addressed ro p pdict sshl sip dip sp dp Hssh Haddr)
    as (record & Hrec & Hall & Hproto & _).
  exists record. split; [exact Hrec |]. split; [exact Hall |].
  split; [| split].
  - intros kf Hin Hnone. rewrite Forall_forall in Hall.
    rewrite (Hall kf Hin). unfold value_or_empty. rewrite Hnone. reflexivity.
  - intros banner Hb. rewrite Hproto. unfold lookup_protocol. rewrite Hb. reflexivity.
  - intros Hb. rewrite Hproto. unfold lookup_protocol. rewrite Hb. reflexivity.
Qed.

Lemma absent_lists_default_to_empty_witness :
  exists record,
    server_hassh Sample.bare_kexinit ∅ = Ok record
    /\ record !! "seastc" = Some (PStr EmptyString)
    /\ record !! "slcts" = Some (PStr EmptyString)
    /\ record !! "server" = Some PNone.
Proof.
  assert (Hssh : ssh Sample.bare_kexinit
                 = Some (Sample.mk_layer [("message_code", "20")])) by reflexivity.
  assert (Haddr : addressed Sample.bare_kexinit "10.0.0.1" "10.0.0.2" "51000" "22")
    by (split; vm_compute; reflexivity).
  destruct (absent_lists_default_to_empty Server Sample.bare_kexinit ∅ _ _ _ _ _ Hssh Haddr)
    as (record & Hrec & _ & Hempty & _ & Hnone).
  exists record. split; [exact Hrec |].
  split; [| split].
  - apply (Hempty ("seastc", "encryption_algorithms_server_to_client"));
      [simpl; set_solver | vm_compute; reflexivity].
  - apply (Hempty ("slcts", "languages_client_to_server"));
      [simpl; set_solver | vm_compute; reflexivity].
  - apply Hnone. vm_compute. reflexivity.
Defined.

(** The protocol field of a record is [None], not a string, when the cache
    has no banner under the key of the packet; and a packet without an
    [ip] layer makes the builder raise. *)
Lemma protocol_field_is_None_without_banner :
  client_hassh Sample.client_kexinit ∅ = Ok Sample.client_record
  /\ Sample.client_record !! "client" = Some PNone
  /\ ~ (exists s, Sample.client_record !! "client" = Some (PStr s))
  /\ client_hassh Sample.ipv6_kexinit ∅ = Raise (AttributeError "ip").
Proof.
  split; [apply returns_record; vm_compute; reflexivity |].
  split; [vm_compute; reflexivity |].
  split; [| vm_compute; reflexivity].
  intros [s Hs]. vm_compute in Hs. discriminate Hs.
Qed.

(** ** C10: the CSV row formatter is partial *)

Lemma csv_logging_neither (record : dict) :
  dict_in "hassh" record = false -> dict_in "hasshServer" record = false ->
  (exists e, csv_logging record = Raise e)
  /\ (Forall (fun k => dict_in k record = true)
             ["timestamp"; "sourceIp"; "destinationIp"; "sourcePort"; "destinationPort"] ->
      csv_logging record = Raise (UnboundLocalError "hasshType")).
Proof.
  intros Hc Hs. unfold csv_logging, csv_branches. rewrite Hc, Hs.
  cbn [mbind res_bind]. unfold dict_get, dict_in.
  split.
  - destruct (record !! "timestamp"); cbn [mbind res_bind]; [| eexists; reflexivity].
    destruct (record !! "sourceIp"); cbn [mbind res_bind]; [| eexists; reflexivity].
    destruct (record !! "destinationIp"); cbn [mbind res_bind]; [| eexists; reflexivity].
    destruct (record !! "sourcePort"); cbn [mbind res_bind]; [| eexists; reflexivity].
    destruct (record !! "destinationPort"); cbn [mbind res_bind]; [| eexists; reflexivity].
    eexists. reflexivity.
  - intros Hall. repeat (apply Forall_cons_1 in Hall as [Hk Hall]; revert Hk).
    destruct (record !! "timestamp"); [| discriminate].
    destruct (record !! "sourceIp"); [| discriminate].
    destruct (record !! "destinationIp"); [| discriminate].
    destruct (record !! "sourcePort"); [| discriminate].
    destruct (record !! "destinationPort"); [| intros; discriminate].
    reflexivity.
Qed.

Lemma event_log_inv (p : packet) (ev : dict) :
  event_log p "retransmission" = Ok ev ->
  exists sip dip sp dp,
    addressed p sip dip sp dp
    /\ ev = dict_of [("timestamp", PStr (sniff_time p));
                     ("eventType", PStr "retransmission");
                     ("eventMessage", PStr "This packet is a (suspected) retransmission");
                     ("sourceIp", PStr sip);
                     ("destinationIp", PStr dip);
                     ("sourcePort", PStr sp);
                     ("destinationPort", PStr dp)].
Proof.
  unfold event_log. cbn [String.eqb Ascii.eqb Bool.eqb mbind res_bind].
  intros H. peel H. injection H as <-.
  do 4 eexists. split; [split; eassumption | reflexivity].
Qed.

Lemma event_log_addressed (p : packet) (sip dip sp dp : string) :
  addressed p sip dip sp dp ->
  exists ev, event_log p "retransmission" = Ok ev
             /\ is_event ev = true /\ is_fingerprint ev = false /\ role_of ev = None
             /\ ev !! "eventType" = Some (PStr "retransmission").
Proof.
  intros [Hs Hd Hsp Hdp]. unfold event_log.
  cbn [String.eqb Ascii.eqb Bool.eqb mbind res_bind].
  rewrite Hs, Hd, Hsp, Hdp. cbn [mbind res_bind].
  eexists. split; [reflexivity |]. repeat split; reflexivity.
Qed.

Lemma csv_logging_event (p : packet) (ev : dict) :
  event_log p "retransmission" = Ok ev ->
  role_of ev = None /\ csv_logging ev = Raise (UnboundLocalError "hasshType").
Proof.
  intros H. apply event_log_inv in H as (sip & dip & sp & dp & _ & ->).
  split; reflexivity.
Qed.

Lemma fingerprint_inv (ro : role) (p : packet) (pdict : gmap string string) (record : dict) :
  fingerprint ro p pdict = Ok record ->
  exists sshl sip dip sp dp, ssh p = Some sshl /\ addressed p sip dip sp dp.
Proof.
  intros H. destruct ro; simpl in H;
    [unfold client_hassh in H | unfold server_hassh in H].
  all: peel H.
  all: match goal with E : layer_of _ _ = Ok ?l |- _ =>
         apply layer_of_Ok in E; exists l end.
  all: do 4 eexists; split; [eassumption | split; eassumption].
Qed.

Lemma csv_logging_fingerprint (ro : role) (p : packet) (pdict : gmap string string)
    (record : dict) :
  fingerprint ro p pdict = Ok record ->
  exists sshl sip dip sp dp kex enc mac cmp,
    ssh p = Some sshl /\ addressed p sip dip sp dp
    /\ map (fun kf => value_or_empty sshl kf.2) (own_fields ro) = [kex; enc; mac; cmp]
    /\ csv_logging record
       = Ok (str_join ","
               [sniff_time p; sip; dip; sp; dp; role_name ro;
                quoted (py_str (lookup_protocol pdict (key_format sip sp dip sp)));
                md5_hexdigest (encode (str_join ";" [kex; enc; mac; cmp]));
                quoted (str_join ";" [kex; enc; mac; cmp]);
                quoted kex; quoted enc; quoted mac; quoted cmp]).
Proof.
  intros H.
  destruct (fingerprint_inv ro p pdict record H) as (sshl & sip & dip & sp & dp & Hssh & Haddr).
  exists sshl, sip, dip, sp, dp.
  pose proof (flow_key_addressed _ _ _ _ _ Haddr) as Hkey.
  pose proof Haddr as [Hs Hd Hsp Hdp].
  destruct ro; simpl in H; [unfold client_hassh in H | unfold server_hassh in H].
  all: rewrite Hkey, Hssh in H; cbn [mbind res_bind layer_of] in H.
  all: repeat (rewrite field_or_eq in H; cbn [mbind res_bind] in H).
  all: rewrite Hs, Hd, Hsp, Hdp in H; cbn [mbind res_bind] in H.
  all: injection H as <-.
  all: do 4 eexists; split; [exact Hssh |]; split; [exact Haddr |].
  all: split; [reflexivity |].
  all: reflexivity.
Qed.

(** C10. [csv_logging] returns a row for the records of [client_hassh] and
    of [server_hassh], the thirteen columns in the order of the header. On
    a record with neither a [hassh] nor a [hasshServer] key it raises: no
    branch assigns the row variables, and the read of [hasshType] is an
    [UnboundLocalError] (a [KeyError] comes first when one of the five
    common keys is missing too). The record of [event_log] is such a
    record. A row therefore comes from a record with one of the two keys
    only. *)
Theorem csv_logging_partial :
  (forall record,
      dict_in "hassh" record = false -> dict_in "hasshServer" record = false ->
      (exists e, csv_logging record = Raise e)
      /\ (Forall (fun k => dict_in k record = true)
                 ["timestamp"; "sourceIp"; "destinationIp"; "sourcePort"; "destinationPort"] ->
          csv_logging record = Raise (UnboundLocalError "hasshType")))
  /\ (forall p ev,
         event_log p "retransmission" = Ok ev ->
         role_of ev = None /\ csv_logging ev = Raise (UnboundLocalError "hasshType"))
  /\ (forall record row,
         csv_logging record = Ok row -> exists ro, role_of record = Some ro)
  /\ (forall ro p pdict record,
         fingerprint ro p pdict = Ok record ->
         exists sshl sip dip sp dp kex enc mac cmp,
           ssh p = Some sshl /\ addressed p sip dip sp dp
           /\ map (fun kf => value_or_empty sshl kf.2) (own_fields ro) = [kex; enc; mac; cmp]
           /\ csv_logging record
              = Ok (str_join ","
                      [sniff_time p; sip; dip; sp; dp; role_name ro;
                       quoted (py_str (lookup_protocol pdict (key_format sip sp dip sp)));
                       md5_hexdigest (encode (str_join ";" [kex; enc; mac; cmp]));
                       quoted (str_join ";" [kex; enc; mac; cmp]);
                       quoted kex; quoted enc; quoted mac; quoted cmp])).
Proof.
  split; [exact csv_logging_neither |].
  split; [exact csv_logging_event |].
  split; [| exact csv_logging_fingerprint].
  intros record row Hrow. unfold role_of.
  destruct (dict_in "hassh" record) eqn:Hc; [eauto |].
  destruct (dict_in "hasshServer" record) eqn:Hs; [eauto |].
  destruct (csv_logging_neither record Hc Hs) as [[e He] _]. congruence.
Qed.

Lemma csv_logging_partial_witness :
  csv_logging Sample.retransmission_event = Raise (UnboundLocalError "hasshType")
  /\ (exists e, csv_logging ∅ = Raise e)
  /\ (exists ro, role_of Sample.client_record = Some ro)
  /\ (exists row, csv_logging Sample.client_record = Ok row).
Proof.
  destruct csv_logging_partial as (Hneither & Hevent & Hkind & Hrow).
  assert (Hev : event_log Sample.retransmitted_kexinit "retransmission"
                = Ok Sample.retransmission_event)
    by (apply returns_record; vm_compute; reflexivity).
  assert (Hrec : fingerprint Client Sample.client_kexinit ∅ = Ok Sample.client_record)
    by (apply returns_record; vm_compute; reflexivity).
  assert (Hc : dict_in "hassh" (∅ : dict) = false) by (vm_compute; reflexivity).
  assert (Hs : dict_in "hasshServer" (∅ : dict) = false) by (vm_compute; reflexivity).
  destruct (Hrow Client _ _ _ Hrec)
    as (? & ? & ? & ? & ? & ? & ? & ? & ? & _ & _ & _ & Hcsv).
  split; [apply (Hevent _ _ Hev) |].
  split; [apply (Hneither ∅ Hc Hs) |].
  split; [apply (Hkind _ _ Hcsv) |].
  eexists. exact Hcsv.
Defined.

(** ** The loop bodies, step by step *)

Ltac run :=
  unfold mbind, M_bind, mret, M_ret, lift, set_protocol, results_append,
         logger_info, print, get_protocol_dict, get_results, new_results,
         new_protocol_dict;
  cbn [layer_of negb protocol_dict results logfile stdout fst snd].

Lemma note_protocol_run (p : packet) (sshl : layer) (key : string) (w : world) :
  flow_key p = Ok key -> note_protocol p sshl w = (noted sshl key w, Ok tt).
Proof.
  intros Hkey. unfold note_protocol, noted, in_names, getattr.
  destruct (sshl !! "protocol") as [banner |]; [| reflexivity].
  run. rewrite Hkey. reflexivity.
Qed.

Lemma noted_fields (sshl : layer) (key : string) (w : world) :
  results (noted sshl key w) = results w
  /\ logfile (noted sshl key w) = logfile w
  /\ stdout (noted sshl key w) = stdout w.
Proof. unfold noted. destruct (sshl !! "protocol"); auto. Qed.

(** Raising or not, the head of the body leaves the results and the two
    sinks as they are. *)
Lemma note_protocol_keeps (p : packet) (sshl : layer) (w : world) :
  results (note_protocol p sshl w).1 = results w
  /\ logfile (note_protocol p sshl w).1 = logfile w
  /\ stdout (note_protocol p sshl w).1 = stdout w.
Proof.
  unfold note_protocol. destruct (in_names "protocol" sshl); [| auto].
  run. destruct (getattr sshl "protocol"); [| auto].
  destruct (flow_key p); auto.
Qed.

Lemma port_test_all (ro : string) (cmp : Z -> Z -> bool) (p : packet)
    (sip dip sp dp : string) (a b : Z) :
  addressed p sip dip sp dp -> py_int sp = Ok a -> py_int dp = Ok b ->
  port_test ro "all" cmp p = Ok (cmp a b).
Proof.
  intros [_ _ Hsp Hdp] Ha Hb. unfold port_test.
  change (String.eqb "all" "all") with true. rewrite orb_true_r.
  rewrite Hsp. cbn [mbind res_bind]. rewrite Ha. cbn [mbind res_bind].
  rewrite Hdp. cbn [mbind res_bind]. rewrite Hb. reflexivity.
Qed.

(** Both bodies up to the retransmission test, on a KEXINIT packet. *)
Ltac enter_kexinit Hk Hkey :=
  let Hh := fresh "Hh" in
  let Hssh := fresh "Hssh" in
  let Hcode := fresh "Hcode" in
  let Htcp := fresh "Htcp" in
  destruct Hk as [Hh Hssh Hcode Htcp];
  rewrite Hh, Hssh; change (String.eqb "SSH" "SSH") with true; run;
  rewrite (note_protocol_run _ _ _ _ Hkey);
  rewrite (in_names_true _ _ _ Hcode), (getattr_Ok _ _ _ Hcode); run;
  change (String.eqb "20" "20") with true; run;
  rewrite Htcp; run.

Lemma replay_body_retransmitted (pcap fprint : string) (oprint : bool) (p : packet)
    (sshl tcpl : layer) (sip dip sp dp : string) (ev : dict) (w : world) :
  kexinit p sshl tcpl -> retransmitted tcpl = true -> addressed p sip dip sp dp ->
  event_log p "retransmission" = Ok ev ->
  replay_body pcap fprint oprint p w
  = (World (protocol_dict (noted sshl (key_format sip sp dip sp) w))
           (results w ++ [ev]) (logfile w) (stdout w), Ok tt).
Proof.
  intros Hk Hre Haddr Hev.
  pose proof (flow_key_addressed _ _ _ _ _ Haddr) as Hkey.
  destruct (noted_fields sshl (key_format sip sp dip sp) w) as (Hr & Hl & Hs).
  unfold replay_body. enter_kexinit Hk Hkey.
  rewrite Hre, Hev. rewrite Hr, Hl, Hs. reflexivity.
Qed.

Lemma live_body_retransmitted (fprint : string) (lf : pyval) (oprint : bool) (p : packet)
    (sshl tcpl : layer) (sip dip sp dp : string) (ev : dict) (w : world) :
  kexinit p sshl tcpl -> retransmitted tcpl = true -> addressed p sip dip sp dp ->
  event_log p "retransmission" = Ok ev ->
  live_body fprint lf oprint p w
  = (World (protocol_dict (noted sshl (key_format sip sp dip sp) w))
           (results w)
           (logfile w ++ (if decide (lf = PStr "json") then [JsonLine ev] else []))
           (stdout w), Ok tt).
Proof.
  intros Hk Hre Haddr Hev.
  pose proof (flow_key_addressed _ _ _ _ _ Haddr) as Hkey.
  destruct (noted_fields sshl (key_format sip sp dip sp) w) as (Hr & Hl & Hs).
  unfold live_body. enter_kexinit Hk Hkey.
  rewrite Hre, Hev. destruct (decide (lf = PStr "json")); run.
  - rewrite Hr, Hl, Hs. reflexivity.
  - rewrite app_nil_r. destruct (noted _ _ w); cbn in *; congruence.
Qed.

Lemma replay_body_classified (pcap : string) (oprint : bool) (p : packet)
    (sshl tcpl : layer) (sip dip sp dp : string) (a b : Z) (w : world) :
  kexinit p sshl tcpl -> retransmitted tcpl = false -> addressed p sip dip sp dp ->
  py_int sp = Ok a -> py_int dp = Ok b ->
  let w1 := noted sshl (key_format sip sp dip sp) w in
  match direction a b with
  | Some ro =>
      exists record,
        fingerprint ro p (protocol_dict w1) = Ok record
        /\ role_of record = Some ro /\ is_event record = false
        /\ replay_body pcap "all" oprint p w
           = (World (protocol_dict w1) (results w ++ [record]) (logfile w)
                    (stdout w ++ (if oprint then [summary ro (Some pcap) record] else [])),
              Ok tt)
  | None => replay_body pcap "all" oprint p w = (w1, Ok tt)
  end.
Proof.
  intros Hk Hre Haddr Ha Hb w1.
  pose proof (flow_key_addressed _ _ _ _ _ Haddr) as Hkey.
  destruct (noted_fields sshl (key_format sip sp dip sp) w) as (Hr & Hl & Hs).
  fold w1 in Hr, Hl, Hs.
  pose proof (kex_ssh _ _ _ Hk) as Hssh'.
  unfold replay_body. enter_kexinit Hk Hkey. fold w1.
  rewrite Hre.
  rewrite (port_test_all "client" Z.gtb _ _ _ _ _ _ _ Haddr Ha Hb).
  unfold direction. destruct (a >? b).
  - destruct (fingerprint_addressed Client p (protocol_dict w1) _ _ _ _ _ Hssh' Haddr)
      as (record & Hrec & _ & _ & Hrole & Hev & _).
    exists record. repeat split; try assumption.
    simpl in Hrec. rewrite Hrec. rewrite Hr, Hl, Hs.
    destruct oprint; cbn [negb]; [reflexivity | rewrite app_nil_r; reflexivity].
  - rewrite (port_test_all "server" Z.ltb _ _ _ _ _ _ _ Haddr Ha Hb).
    destruct (a <? b); [| reflexivity].
    destruct (fingerprint_addressed Server p (protocol_dict w1) _ _ _ _ _ Hssh' Haddr)
      as (record & Hrec & _ & _ & Hrole & Hev & _).
    exists record. repeat split; try assumption.
    simpl in Hrec. rewrite Hrec. rewrite Hr, Hl, Hs.
    destruct oprint; cbn [negb]; [reflexivity | rewrite app_nil_r; reflexivity].
Qed.

(** A packet at which the body raises adds no record. *)
Lemma replay_body_raise (pcap fprint : string) (oprint : bool) (p : packet)
    (w w' : world) (e : exn) :
  replay_body pcap fprint oprint p w = (w', Raise e) -> results w' = results w.
Proof.
  unfold replay_body. run.
  destruct (String.eqb (highest_layer p) "SSH"); cbn [negb]; [| intros [=]].
  destruct (ssh p) as [sshl |]; cbn [layer_of]; [| intros [= <- _]; reflexivity].
  pose proof (note_protocol_keeps p sshl w) as (Hr & _ & _).
  destruct (note_protocol p sshl w) as [w1 [[] | e1]]; cbn [fst] in Hr;
    [| intros [= <- _]; exact Hr].
  destruct (in_names "message_code" sshl); cbn [negb]; [| intros [=]].
  destruct (getattr sshl "message_code") as [code |]; [| intros [= <- _]; exact Hr].
  destruct (String.eqb code "20"); cbn [negb]; [| intros [=]].
  destruct (tcp p) as [tcpl |]; cbn [layer_of]; [| intros [= <- _]; exact Hr].
  destruct (retransmitted tcpl).
  { destruct (event_log p "retransmission"); [intros [=] | intros [= <- _]; exact Hr]. }
  destruct (port_test "client" fprint Z.gtb p) as [[|] |]; [| | intros [= <- _]; exact Hr].
  { destruct (client_hassh p (protocol_dict w1)); [| intros [= <- _]; exact Hr].
    destruct oprint; cbn [negb]; intros [=]. }
  destruct (port_test "server" fprint Z.ltb p) as [[|] |];
    [| intros [=] | intros [= <- _]; exact Hr].
  destruct (server_hassh p (protocol_dict w1)); [| intros [= <- _]; exact Hr].
  destruct oprint; cbn [negb]; intros [=].
Qed.

Lemma role_of_fingerprint (record : dict) (ro : role) :
  role_of record = Some ro -> is_fingerprint record = true.
Proof.
  unfold role_of, is_fingerprint.
  destruct (dict_in "hassh" record); [reflexivity |].
  destruct (dict_in "hasshServer" record); [reflexivity | discriminate].
Qed.

Lemma retransmitted_iff (tcpl : layer) :
  retransmitted tcpl = true <->
  in_names "analysis_retransmission" tcpl = true
  \/ in_names "analysis_spurious_retransmission" tcpl = true.
Proof. unfold retransmitted. apply orb_true_iff. Qed.

(** ** C3: retransmitted KEXINIT packets *)

(** A KEXINIT packet flagged as retransmitted and carried over IPv6 passes
    both filters, and [event_log] raises at [packet.ip.src]: no event is
    built. In replay the packet adds nothing to the results and the replay
    is given up, so that the capture returns no record, the client KEXINIT
    that follows included; in live capture nothing is logged and the
    exception leaves the loop. *)
Lemma flagged_ipv6_kexinit_gives_no_event :
  kexinit Sample2.ipv6_retransmitted_kexinit Sample.kexinit_fields
          (Sample.mk_layer [("srcport", "51000"); ("dstport", "22");
                            ("analysis_retransmission", EmptyString)])
  /\ in_names "analysis_retransmission"
              (Sample.mk_layer [("srcport", "51000"); ("dstport", "22");
                                ("analysis_retransmission", EmptyString)]) = true
  /\ event_log Sample2.ipv6_retransmitted_kexinit "retransmission"
     = Raise (AttributeError "ip")
  /\ replay_body "a.pcap" "all" false Sample2.ipv6_retransmitted_kexinit start
     = (start, Raise (AttributeError "ip"))
  /\ process_pcap_file [Sample2.ipv6_retransmitted_kexinit; Sample.client_kexinit]
                       "a.pcap" "all" false start
     = (World ∅ [] [] [ErrorLine (AttributeError "ip")], Ok [])
  /\ live_body "all" (PStr "json") false Sample2.ipv6_retransmitted_kexinit start
     = (start, Raise (AttributeError "ip")).
Proof.
  split; [split; [reflexivity | reflexivity | vm_compute; reflexivity | reflexivity] |].
  repeat split; vm_compute; reflexivity.
Qed.

(** C3, as the code has it. A KEXINIT packet that carries its addresses
    and ports and whose TCP layer has the field [analysis_retransmission]
    or [analysis_spurious_retransmission] gives the retransmission event
    and nothing else: in replay the event is the one record the packet
    adds to the results, in live capture it is the one line logged (as
    JSON, and no line for another format). The event is not a fingerprint
    record. This holds whatever the role filter is and whatever the ports
    are, parsable or not: the test comes before the ports are compared and
    before a fingerprint is built. *)
Theorem retransmission_suppresses_fingerprint
    (pcap fprint : string) (lf : pyval) (oprint : bool) (p : packet)
    (sshl tcpl : layer) (sip dip sp dp : string) (w : world)
    (Hk : kexinit p sshl tcpl)
    (Hre : in_names "analysis_retransmission" tcpl = true
           \/ in_names "analysis_spurious_retransmission" tcpl = true)
    (Haddr : addressed p sip dip sp dp) :
  exists ev,
    event_log p "retransmission" = Ok ev
    /\ is_event ev = true /\ is_fingerprint ev = false
    /\ ev !! "eventType" = Some (PStr "retransmission")
    /\ replay_body pcap fprint oprint p w
       = (World (protocol_dict (noted sshl (key_format sip sp dip sp) w))
                (results w ++ [ev]) (logfile w) (stdout w), Ok tt)
    /\ live_body fprint lf oprint p w
       = (World (protocol_dict (noted sshl (key_format sip sp dip sp) w))
                (results w)
                (logfile w ++ (if decide (lf = PStr "json") then [JsonLine ev] else []))
                (stdout w), Ok tt).
Proof.
  apply retransmitted_iff in Hre.
  destruct (event_log_addressed p sip dip sp dp Haddr) as (ev & Hev & He & Hf & _ & Ht).
  exists ev. repeat split; try assumption.
  - eapply replay_body_retransmitted; eassumption.
  - eapply live_body_retransmitted; eassumption.
Qed.

Lemma retransmission_suppresses_fingerprint_witness :
  exists ev,
    event_log Sample.retransmitted_kexinit "retransmission" = Ok ev
    /\ is_fingerprint ev = false
    /\ results (replay_body "a.pcap" "all" false Sample.retransmitted_kexinit start).1 = [ev]
    /\ logfile (live_body "all" (PStr "json") false Sample.retransmitted_kexinit start).1
       = [JsonLine ev]
    /\ logfile (live_body "all" (PStr "csv") false Sample.retransmitted_kexinit start).1 = [].
Proof.
  assert (Hk : kexinit Sample.retransmitted_kexinit Sample.kexinit_fields
                       (Sample.mk_layer [("srcport", "51000"); ("dstport", "22");
                                         ("analysis_retransmission", EmptyString)]))
    by (split; [reflexivity | reflexivity | vm_compute; reflexivity | reflexivity]).
  assert (Hre : in_names "analysis_retransmission"
                  (Sample.mk_layer [("srcport", "51000"); ("dstport", "22");
                                    ("analysis_retransmission", EmptyString)]) = true)
    by (vm_compute; reflexivity).
  assert (Haddr : addressed Sample.retransmitted_kexinit "10.0.0.1" "10.0.0.2" "51000" "22")
    by (split; vm_compute; reflexivity).
  destruct (retransmission_suppresses_fingerprint "a.pcap" "all" (PStr "json") false
              _ _ _ _ _ _ _ start Hk (or_introl Hre) Haddr)
    as (ev & Hev & _ & Hf & _ & Hreplay & Hjson).
  destruct (retransmission_suppresses_fingerprint "a.pcap" "all" (PStr "csv") false
              _ _ _ _ _ _ _ start Hk (or_introl Hre) Haddr)
    as (ev' & _ & _ & _ & _ & _ & Hcsv).
  exists ev. rewrite Hreplay, Hjson, Hcsv.
  repeat split; try assumption; reflexivity.
Defined.

(** ** C2: the role of a record *)

(** A KEXINIT packet carried over IPv6, from port 51000 to port 22, passes
    both filters and is not flagged as retransmitted; its ports parse, and
    the source port is the greater. [client_hassh] raises at
    [packet.ip.src]: the packet adds no record, and the capture returns
    none. *)
Lemma ipv6_kexinit_gives_no_client_record :
  kexinit Sample.ipv6_kexinit Sample.kexinit_fields
          (Sample.mk_layer [("srcport", "51000"); ("dstport", "22")])
  /\ retransmitted (Sample.mk_layer [("srcport", "51000"); ("dstport", "22")]) = false
  /\ tcp_srcport Sample.ipv6_kexinit = Ok "51000"
  /\ tcp_dstport Sample.ipv6_kexinit = Ok "22"
  /\ py_int "51000" = Ok 51000 /\ py_int "22" = Ok 22
  /\ direction 51000 22 = Some Client
  /\ client_hassh Sample.ipv6_kexinit (protocol_dict start) = Raise (AttributeError "ip")
  /\ replay_body "a.pcap" "all" false Sample.ipv6_kexinit start
     = (start, Raise (AttributeError "ip"))
  /\ process_pcap_file [Sample.ipv6_kexinit] "a.pcap" "all" false start
     = (World ∅ [] [] [ErrorLine (AttributeError "ip")], Ok []).
Proof.
  split; [split; [reflexivity | reflexivity | vm_compute; reflexivity | reflexivity] |].
  repeat split; vm_compute; reflexivity.
Qed.

(** C2, as the code has it. With the role filter [all], a KEXINIT packet
    that carries its addresses and ports and is not flagged as
    retransmitted adds to the results what the two parsed ports decide: one
    client record when the source port is the greater, one server record
    when it is the smaller, nothing when the two are equal. *)
Theorem role_is_decided_by_ports
    (pcap : string) (oprint : bool) (p : packet) (sshl tcpl : layer)
    (sip dip sp dp : string) (a b : Z) (w : world)
    (Hk : kexinit p sshl tcpl) (Hre : retransmitted tcpl = false)
    (Haddr : addressed p sip dip sp dp)
    (Ha : py_int sp = Ok a) (Hb : py_int dp = Ok b) :
  exists (delta : list dict) (w' : world),
    replay_body pcap "all" oprint p w = (w', Ok tt)
    /\ results w' = (results w ++ delta)%list
    /\ map role_of delta
       = match direction a b with Some ro => [Some ro] | None => [] end
    /\ (a > b -> exists record,
          delta = [record] /\ client_hassh p (protocol_dict w') = Ok record
          /\ role_of record = Some Client)
    /\ (a < b -> exists record,
          delta = [record] /\ server_hassh p (protocol_dict w') = Ok record
          /\ role_of record = Some Server)
    /\ (a = b -> delta = []).
Proof.
  pose proof (replay_body_classified pcap oprint p sshl tcpl sip dip sp dp a b w
                Hk Hre Haddr Ha Hb) as H.
  cbv zeta in H. unfold direction in *.
  destruct (a >? b) eqn:Hgt; [| destruct (a <? b) eqn:Hlt].
  - destruct H as (record & Hrec & Hrole & _ & Hbody).
    exists [record]. eexists. split; [exact Hbody |]. cbn [results protocol_dict].
    split; [reflexivity |]. split; [cbn; rewrite Hrole; reflexivity |].
    split; [intros _; exists record; auto |].
    split; intros; lia.
  - destruct H as (record & Hrec & Hrole & _ & Hbody).
    exists [record]. eexists. split; [exact Hbody |]. cbn [results protocol_dict].
    split; [reflexivity |]. split; [cbn; rewrite Hrole; reflexivity |].
    split; [intros; lia |].
    split; [intros _; exists record; auto | intros; lia].
  - exists []. eexists. split; [exact H |].
    split; [rewrite app_nil_r; apply noted_fields |].
    split; [reflexivity |].
    split; [intros; lia |]. split; [intros; lia | reflexivity].
Qed.

Lemma role_is_decided_by_ports_witness :
  (exists record,
     results (replay_body "a.pcap" "all" false Sample.client_kexinit start).1 = [record]
     /\ role_of record = Some Client)
  /\ (exists record,
        results (replay_body "a.pcap" "all" false Sample.server_kexinit start).1 = [record]
        /\ role_of record = Some Server)
  /\ results (replay_body "a.pcap" "all" false Sample.equal_ports_kexinit start).1 = [].
Proof.
  assert (Hre : forall s d,
             retransmitted (Sample.mk_layer [("srcport", s); ("dstport", d)]) = false)
    by (intros; vm_compute; reflexivity).
  assert (Hk : forall i s d,
             kexinit (Packet "SSH" Sample.t0 i (Sample.ports s d) (Some Sample.kexinit_fields))
                     Sample.kexinit_fields
                     (Sample.mk_layer [("srcport", s); ("dstport", d)]))
    by (intros; split; [reflexivity | reflexivity | vm_compute; reflexivity | reflexivity]).
  split; [| split].
  - assert (Haddr : addressed Sample.client_kexinit "10.0.0.1" "10.0.0.2" "51000" "22")
      by (split; vm_compute; reflexivity).
    destruct (role_is_decided_by_ports "a.pcap" false Sample.client_kexinit _ _ _ _ _ _
                51000 22 start (Hk _ _ _) (Hre _ _) Haddr eq_refl eq_refl)
      as (delta & w' & Hbody & Hres & _ & Hgt & _).
    destruct (Hgt ltac:(lia)) as (record & -> & _ & Hrole).
    exists record. rewrite Hbody. split; [exact Hres | exact Hrole].
  - assert (Haddr : addressed Sample.server_kexinit "10.0.0.2" "10.0.0.1" "22" "51000")
      by (split; vm_compute; reflexivity).
    destruct (role_is_decided_by_ports "a.pcap" false Sample.server_kexinit _ _ _ _ _ _
                22 51000 start (Hk _ _ _) (Hre _ _) Haddr eq_refl eq_refl)
      as (delta & w' & Hbody & Hres & _ & _ & Hlt & _).
    destruct (Hlt ltac:(lia)) as (record & -> & _ & Hrole).
    exists record. rewrite Hbody. split; [exact Hres | exact Hrole].
  - assert (Haddr : addressed Sample.equal_ports_kexinit "10.0.0.1" "10.0.0.2" "22" "22")
      by (split; vm_compute; reflexivity).
    destruct (role_is_decided_by_ports "a.pcap" false Sample.equal_ports_kexinit _ _ _ _ _ _
                22 22 start (Hk _ _ _) (Hre _ _) Haddr eq_refl eq_refl)
      as (delta & w' & Hbody & Hres & _ & _ & _ & Heq).
    rewrite Hbody. cbn [fst]. rewrite Hres, (Heq eq_refl). reflexivity.
Defined.

(** ** C8: how many records a KEXINIT packet gives *)

(** The KEXINIT packet from port 22 to port 22 passes both filters, is not
    flagged as retransmitted, makes no fault, and gives no record. *)
Lemma equal_ports_kexinit_gives_no_record :
  passes_filter Sample.equal_ports_kexinit = true
  /\ process_pcap_file [Sample.equal_ports_kexinit] "a.pcap" "all" false start
     = (start, Ok []).
Proof. split; vm_compute; reflexivity. Qed.

(** C8, as the code has it. With the role filter [all], a KEXINIT packet
    that carries its addresses and parsable ports gives at most one record,
    an event or a fingerprint and never both: the retransmission event when
    it is flagged as retransmitted; otherwise one fingerprint record when
    its two ports differ, and no record when they are equal. *)
Theorem kexinit_gives_at_most_one_record
    (pcap : string) (oprint : bool) (p : packet) (sshl tcpl : layer)
    (sip dip sp dp : string) (a b : Z) (w : world)
    (Hk : kexinit p sshl tcpl) (Haddr : addressed p sip dip sp dp)
    (Ha : py_int sp = Ok a) (Hb : py_int dp = Ok b) :
  exists (delta : list dict) (w' : world),
    replay_body pcap "all" oprint p w = (w', Ok tt)
    /\ results w' = (results w ++ delta)%list
    /\ (length delta <= 1)%nat
    /\ Forall (fun r => is_event r = negb (is_fingerprint r)) delta
    /\ (retransmitted tcpl = true ->
        exists ev, delta = [ev] /\ is_event ev = true /\ is_fingerprint ev = false)
    /\ (retransmitted tcpl = false -> a <> b ->
        exists record,
          delta = [record] /\ is_fingerprint record = true /\ is_event record = false)
    /\ (retransmitted tcpl = false -> a = b -> delta = []).
Proof.
  destruct (retransmitted tcpl) eqn:Hre.
  - destruct (event_log_addressed p sip dip sp dp Haddr) as (ev & Hev & He & Hf & _).
    pose proof (replay_body_retransmitted pcap "all" oprint p sshl tcpl sip dip sp dp ev w
                  Hk Hre Haddr Hev) as Hbody.
    exists [ev]. eexists. split; [exact Hbody |]. cbn [results].
    split; [reflexivity |]. split; [simpl; lia |].
    split; [repeat constructor; rewrite He, Hf; reflexivity |].
    split; [intros _; exists ev; auto |]. split; intros; discriminate.
  - pose proof (replay_body_classified pcap oprint p sshl tcpl sip dip sp dp a b w
                  Hk Hre Haddr Ha Hb) as H.
    cbv zeta in H. unfold direction in H.
    assert (Hcases : (a >? b) = true \/ (a <? b) = true \/ a = b) by lia.
    destruct (a >? b) eqn:Hgt; [| destruct (a <? b) eqn:Hlt].
    1, 2: destruct H as (record & _ & Hrole & Hev & Hbody);
      apply role_of_fingerprint in Hrole;
      exists [record]; eexists; (split; [exact Hbody |]); cbn [results];
      (split; [reflexivity |]); (split; [simpl; lia |]);
      (split; [repeat constructor; rewrite Hev, Hrole; reflexivity |]);
      (split; [intros; discriminate |]);
      (split; [intros _ _; exists record; auto | intros; lia]).
    exists []. eexists. split; [exact H |].
    split; [rewrite app_nil_r; apply noted_fields |].
    split; [simpl; lia |]. split; [constructor |].
    split; [intros; discriminate |].
    split; [intros; lia | reflexivity].
Qed.

Lemma kexinit_gives_at_most_one_record_witness :
  results (replay_body "a.pcap" "all" false Sample.equal_ports_kexinit start).1 = []
  /\ exists record,
       results (replay_body "a.pcap" "all" false Sample.client_kexinit start).1 = [record]
       /\ is_fingerprint record = true /\ is_event record = false.
Proof.
  assert (Hre : forall s d,
             retransmitted (Sample.mk_layer [("srcport", s); ("dstport", d)]) = false)
    by (intros; vm_compute; reflexivity).
  assert (Hk : forall i s d,
             kexinit (Packet "SSH" Sample.t0 i (Sample.ports s d) (Some Sample.kexinit_fields))
                     Sample.kexinit_fields
                     (Sample.mk_layer [("srcport", s); ("dstport", d)]))
    by (intros; split; [reflexivity | reflexivity | vm_compute; reflexivity | reflexivity]).
  split.
  - assert (Haddr : addressed Sample.equal_ports_kexinit "10.0.0.1" "10.0.0.2" "22" "22")
      by (split; vm_compute; reflexivity).
    destruct (kexinit_gives_at_most_one_record "a.pcap" false Sample.equal_ports_kexinit
                _ _ _ _ _ _ 22 22 start (Hk _ _ _) Haddr eq_refl eq_refl)
      as (delta & w' & Hbody & Hres & _ & _ & _ & _ & Heq).
    rewrite Hbody. cbn [fst]. rewrite Hres, (Heq (Hre _ _) eq_refl). reflexivity.
  - assert (Haddr : addressed Sample.client_kexinit "10.0.0.1" "10.0.0.2" "51000" "22")
      by (split; vm_compute; reflexivity).
    destruct (kexinit_gives_at_most_one_record "a.pcap" false Sample.client_kexinit
                _ _ _ _ _ _ 51000 22 start (Hk _ _ _) Haddr eq_refl eq_refl)
      as (delta & w' & Hbody & Hres & _ & _ & _ & Hne & _).
    destruct (Hne (Hre _ _) ltac:(lia)) as (record & -> & Hf & He).
    exists record. rewrite Hbody. auto.
Defined.

(** ** C6: a fault during replay *)

Lemma for_each_app {A : Type} (body : A -> M world unit) (l1 l2 : list A) (w : world) :
  for_each body (l1 ++ l2) w
  = match for_each body l1 w with
    | (w1, Ok tt) => for_each body l2 w1
    | (w1, Raise e) => (w1, Raise e)
    end.
Proof.
  revert w. induction l1 as [| x l1 IH]; intros w; [reflexivity |].
  cbn [app for_each]. run.
  destruct (body x w) as [w1 [[] | e]]; [apply IH | reflexivity].
Qed.

Lemma process_pcap_file_run (cap : list packet) (pcap fprint : string) (oprint : bool)
    (w : world) :
  process_pcap_file cap pcap fprint oprint w
  = match for_each (replay_body pcap fprint oprint) cap
            (World ∅ [] (logfile w) (stdout w)) with
    | (w1, Ok tt) => (w1, Ok (results w1))
    | (w1, Raise e) =>
        (World (protocol_dict w1) (results w1) (logfile w1) (stdout w1 ++ [ErrorLine e]),
         Ok (results w1))
    end.
Proof.
  unfold process_pcap_file, try_except. run.
  destruct (for_each _ cap _) as [w1 [[] | e]]; reflexivity.
Qed.

(** [process_pcap_file] returns a list on every capture: no exception of a
    packet leaves it. *)
Lemma process_pcap_file_returns (cap : list packet) (pcap fprint : string) (oprint : bool)
    (w : world) :
  exists w', process_pcap_file cap pcap fprint oprint w = (w', Ok (results w')).
Proof.
  rewrite process_pcap_file_run.
  destruct (for_each _ cap _) as [w1 [[] | e]].
  - exists w1. reflexivity.
  - exists (World (protocol_dict w1) (results w1) (logfile w1) (stdout w1 ++ [ErrorLine e])).
    reflexivity.
Qed.

(** The first packet of the capture is carried over IPv6 and makes
    [client_hassh] raise; the second is an ordinary client KEXINIT. The
    code returns no record at all and prints the error, where a replay
    that went on with the next packet would return the record of the
    second. *)
Lemma replay_does_not_continue_after_fault :
  process_pcap_file [Sample.ipv6_kexinit; Sample.client_kexinit] "a.pcap" "all" false start
  = (World ∅ [] [] [ErrorLine (AttributeError "ip")], Ok [])
  /\ map role_of (returned (replay_recovering [Sample.ipv6_kexinit; Sample.client_kexinit]
                                               "a.pcap" "all" false start))
     = [Some Client].
Proof. split; vm_compute; reflexivity. Qed.

(** C6, as the code has it. When the body raises at a packet, the
    exception is caught and printed, the packet adds no record, and the
    replay ends there: the packets after it are not looked at, and the list
    returned is the one of the packets before it. *)
Theorem replay_stops_at_first_fault
    (before after : list packet) (p : packet) (pcap fprint : string) (oprint : bool)
    (w w1 w2 : world) (e : exn)
    (Hbefore : for_each (replay_body pcap fprint oprint) before
                        (World ∅ [] (logfile w) (stdout w)) = (w1, Ok tt))
    (Hfault : replay_body pcap fprint oprint p w1 = (w2, Raise e)) :
  process_pcap_file (before ++ p :: after) pcap fprint oprint w
  = (World (protocol_dict w2) (results w1) (logfile w2) (stdout w2 ++ [ErrorLine e]),
     Ok (results w1))
  /\ results w2 = results w1
  /\ returned (process_pcap_file (before ++ p :: after) pcap fprint oprint w)
     = returned (process_pcap_file before pcap fprint oprint w).
Proof.
  pose proof (replay_body_raise _ _ _ _ _ _ _ Hfault) as Hres.
  rewrite !process_pcap_file_run, for_each_app, Hbefore.
  cbn [for_each]. run. rewrite Hfault, Hres. auto.
Qed.

Lemma replay_stops_at_first_fault_witness :
  returned (process_pcap_file
              [Sample.equal_ports_kexinit; Sample.ipv6_kexinit; Sample.client_kexinit]
              "a.pcap" "all" false start)
  = returned (process_pcap_file [Sample.equal_ports_kexinit] "a.pcap" "all" false start).
Proof.
  apply (replay_stops_at_first_fault [Sample.equal_ports_kexinit] [Sample.client_kexinit]
           Sample.ipv6_kexinit "a.pcap" "all" false start start start (AttributeError "ip")).
  - vm_compute. reflexivity.
  - vm_compute. reflexivity.
Defined.

(** ** C7: events and the CSV log *)

(** In live capture the event of a retransmitted packet is logged for the
    JSON format only: with the CSV format the log is the header and the row
    of the fingerprint record. *)
Example live_csv_log_skips_event :
  live_capture [Sample.retransmitted_kexinit; Sample.client_kexinit]
               "all" (PStr "csv") false start
  = (World ∅ [] [TextLine csv_header; TextLine Sample.client_row] [Exiting], Ok tt).
Proof. vm_compute. reflexivity. Qed.

(** C7. The capture file holds a retransmitted KEXINIT and then a client
    KEXINIT, and the log format is CSV. [process_pcap_file] returns the
    event and the client record; [main] writes the header, hands the event
    to [csv_logging], and ends on its [UnboundLocalError]: the row of the
    client record is never written. With the JSON format both are logged,
    the event first. *)
Theorem csv_replay_fails_on_retransmission_event :
  let cap := [Sample.retransmitted_kexinit; Sample.client_kexinit] in
  let csv := main_read_file cap "a.pcap" "all" (PStr "csv") false start in
  let json := main_read_file cap "a.pcap" "all" (PStr "json") false start in
  map role_of (results csv.1) = [None; Some Client]
  /\ logfile csv.1 = [TextLine csv_header]
  /\ csv.2 = Raise (UnboundLocalError "hasshType")
  /\ map kind_of (logfile json.1) = [JsonOf None; JsonOf (Some Client)]
  /\ json.2 = Ok tt.
Proof. cbv zeta. repeat split; vm_compute; reflexivity. Qed.

(** ** C4: the banner a record reports *)

(** The cache is read under the key it was written under, and the key
    leaves the destination port out: a banner seen from [sip:sp] to [dip]
    is reported for every later KEXINIT from [sip:sp] to [dip], whatever
    the destination ports of the two packets. *)
Lemma banner_is_shared_across_destination_ports
    (ro : role) (q p : packet) (sshq sshp : layer) (sip dip sp dq dp banner : string)
    (w : world) :
  sshq !! "protocol" = Some banner ->
  addressed q sip dip sp dq -> addressed p sip dip sp dp -> ssh p = Some sshp ->
  exists w1 record,
    note_protocol q sshq w = (w1, Ok tt)
    /\ fingerprint ro p (protocol_dict w1) = Ok record
    /\ record !! protocol_key ro = Some (PStr banner).
Proof.
  intros Hb Hq Hp Hssh.
  pose proof (flow_key_addressed _ _ _ _ _ Hq) as Hkey.
  exists (noted sshq (key_format sip sp dip sp) w).
  destruct (fingerprint_addressed ro p
              (protocol_dict (noted sshq (key_format sip sp dip sp) w))
              sshp sip dip sp dp Hssh Hp) as (record & Hrec & _ & Hproto & _).
  exists record. split; [apply note_protocol_run; exact Hkey |].
  split; [exact Hrec |].
  rewrite Hproto. unfold noted, lookup_protocol. rewrite Hb. cbn [protocol_dict].
  rewrite lookup_insert_eq. reflexivity.
Qed.

(** A later banner under the same key replaces the earlier one. *)
Lemma last_banner_wins (pdict : gmap string string) (key b1 b2 : string) :
  lookup_protocol (<[key := b2]> (<[key := b1]> pdict)) key = PStr b2.
Proof. unfold lookup_protocol. rewrite lookup_insert_eq. reflexivity. Qed.

(** C4. The only banner of the capture is on the flow from 10.0.0.1:51000
    to 10.0.0.2:2222; the KEXINIT is on the flow from 10.0.0.1:51000 to
    10.0.0.2:22, for which no banner was seen. The record of the KEXINIT
    reports the banner of the other flow. *)
Theorem banner_of_another_flow_is_reported :
  four_tuple Sample.banner_other_port = Ok ("10.0.0.1", "51000", "10.0.0.2", "2222")
  /\ four_tuple Sample.client_kexinit = Ok ("10.0.0.1", "51000", "10.0.0.2", "22")
  /\ map (fun record : dict => record !! "client")
         (returned (process_pcap_file [Sample.banner_other_port; Sample.client_kexinit]
                                      "a.pcap" "all" false start))
     = [Some (PStr "SSH-2.0-libssh_0.9.6")].
Proof. repeat split; vm_compute; reflexivity. Qed.

(** With the banner on the flow of the KEXINIT itself the record reports
    it, and the later of two banners of the flow is the one reported. *)
Example banner_of_the_same_flow :
  map (fun record : dict => record !! "client")
      (returned (process_pcap_file [Sample.banner; Sample.client_kexinit]
                                   "a.pcap" "all" false start))
  = [Some (PStr "SSH-2.0-OpenSSH_8.1")]
  /\ map (fun record : dict => record !! "client")
         (returned (process_pcap_file
                      [Sample.banner_other_port; Sample.banner; Sample.client_kexinit]
                      "a.pcap" "all" false start))
     = [Some (PStr "SSH-2.0-OpenSSH_8.1")].
Proof. split; vm_compute; reflexivity. Qed.

(** * Further properties *)

Local Open Scope list_scope.

(** ** The results and the two sinks are only appended to *)

Lemma extend_bare (w : world) : extend w (bare (protocol_dict w)) = w.
Proof. destruct w. unfold extend, bare. cbn. rewrite !app_nil_r. reflexivity. Qed.

Lemma note_protocol_frame (p : packet) (sshl : layer) (w : world) :
  note_protocol p sshl w
  = (extend w (note_protocol p sshl (bare (protocol_dict w))).1,
     (note_protocol p sshl (bare (protocol_dict w))).2).
Proof.
  unfold note_protocol. destruct (in_names "protocol" sshl); run;
    [| rewrite extend_bare; reflexivity].
  destruct (getattr sshl "protocol"); cbn [fst snd];
    [| rewrite extend_bare; reflexivity].
  destruct (flow_key p); cbn [fst snd]; [| rewrite extend_bare; reflexivity].
  unfold extend, bare. cbn. rewrite !app_nil_r. reflexivity.
Qed.
(** ** What a packet contributes, in replay and in live capture *)

Lemma fingerprint_role (ro : role) (p : packet) (pd : gmap string string) (record : dict) :
  fingerprint ro p pd = Ok record -> role_of record = Some ro /\ is_event record = false.
Proof.
  intros H. destruct (fingerprint_inv ro p pd record H) as (sshl & sip & dip & sp & dp & Hssh & Haddr).
  destruct (fingerprint_addressed ro p pd sshl sip dip sp dp Hssh Haddr)
    as (record' & Hrec & _ & _ & Hrole & Hev & _).
  assert (record' = record) by congruence. subst. auto.
Qed.

Ltac leaf :=
  cbn [results logfile stdout protocol_dict fst snd summaries omap list_omap app];
  rewrite ?app_nil_r;
  try reflexivity.

(** The replay body on any world, from what the packet contributes on a
    world with nothing but the banner cache. *)
Lemma replay_body_contribution (pcap fprint : string) (oprint : bool) (p : packet) (w : world) :
  replay_body pcap fprint oprint p w
  = (World (banner_update p (protocol_dict w))
           (results w ++ (contribution fprint p (protocol_dict w)).1)
           (logfile w)
           (stdout w ++ summaries (Some pcap) oprint (contribution fprint p (protocol_dict w)).1),
     (contribution fprint p (protocol_dict w)).2).
Proof.
  destruct w as [pd rs lf so].
  unfold contribution, replay_body, banner_update, note_protocol, bare, in_names, getattr.
  run.
  destruct (String.eqb (highest_layer p) "SSH"); cbn [negb].
  2: { destruct oprint; leaf. }
  destruct (ssh p) as [sshl |]; cbn [layer_of].
  2: { destruct oprint; leaf. }
  destruct (sshl !! "protocol") as [banner |]; run;
    [destruct (flow_key p) as [key | e]; run; [| destruct oprint; leaf] |].
  all: destruct (sshl !! "message_code") as [code |]; cbn [negb];
    [| destruct oprint; leaf].
  all: destruct (String.eqb code "20"); cbn [negb]; [| destruct oprint; leaf].
  all: destruct (tcp p) as [tcpl |]; cbn [layer_of]; [| destruct oprint; leaf].
  all: destruct (retransmitted tcpl);
    [destruct (event_log p "retransmission") as [ev |] eqn:Hev;
       [apply csv_logging_event in Hev as [Hev _] | ];
       destruct oprint; leaf; unfold summary_of; try rewrite Hev; leaf |].
  all: destruct (port_test "client" fprint Z.gtb p) as [[|] |];
    [ | | destruct oprint; leaf].
  all: cbn [protocol_dict results logfile stdout fst snd].
  all: try (match goal with |- context [client_hassh ?q ?d] =>
         destruct (client_hassh q d) as [record |] eqn:Hrec;
         [apply (fingerprint_role Client) in Hrec as [Hrec _] |];
         destruct oprint; leaf; unfold summary_of; try rewrite Hrec; leaf end).
  all: destruct (port_test "server" fprint Z.ltb p) as [[|] |];
    [ | destruct oprint; leaf | destruct oprint; leaf].
  all: cbn [protocol_dict results logfile stdout fst snd].
  all: match goal with |- context [server_hassh ?q ?d] =>
         destruct (server_hassh q d) as [record |] eqn:Hrec;
         [apply (fingerprint_role Server) in Hrec as [Hrec _] |];
         destruct oprint; leaf; unfold summary_of; try rewrite Hrec; leaf end.
Qed.

Lemma fingerprint_row (ro : role) (p : packet) (pd : gmap string string) (record : dict) :
  fingerprint ro p pd = Ok record -> exists row, csv_logging record = Ok row.
Proof.
  intros H. destruct (csv_logging_fingerprint ro p pd record H)
    as (? & ? & ? & ? & ? & ? & ? & ? & ? & _ & _ & _ & Hrow). eauto.
Qed.

Ltac live_leaf :=
  unfold log_record, log_lines, csv_line, summaries, summary_of;
  repeat (match goal with |- context [decide (?a = ?b)] => destruct (decide (a = b)) end);
  run;
  repeat (match goal with H : _ = _ |- _ => rewrite H end);
  run;
  cbn [results logfile stdout protocol_dict fst snd omap list_omap app map];
  repeat (match goal with H : _ = _ |- _ => rewrite H end);
  rewrite ?app_nil_r;
  try reflexivity;
  try congruence.

(** The live body on any world, from what the packet contributes in
    replay. *)
Lemma live_body_contribution (fprint : string) (lf : pyval) (oprint : bool) (p : packet) (w : world) :
  live_body fprint lf oprint p w
  = (World (banner_update p (protocol_dict w))
           (results w)
           (logfile w ++ log_lines lf (contribution fprint p (protocol_dict w)).1)
           (stdout w ++ summaries None oprint (contribution fprint p (protocol_dict w)).1),
     (contribution fprint p (protocol_dict w)).2).
Proof.
  destruct w as [pd rs lf0 so].
  unfold contribution, live_body, replay_body, banner_update, note_protocol, bare, in_names, getattr.
  run.
  destruct (String.eqb (highest_layer p) "SSH"); cbn [negb].
  2: { destruct oprint; live_leaf. }
  destruct (ssh p) as [sshl |]; cbn [layer_of].
  2: { destruct oprint; live_leaf. }
  destruct (sshl !! "protocol") as [banner |]; run;
    [destruct (flow_key p) as [key | e]; run; [| destruct oprint; live_leaf] |].
  all: destruct (sshl !! "message_code") as [code |]; cbn [negb];
    [| destruct oprint; live_leaf].
  all: destruct (String.eqb code "20"); cbn [negb]; [| destruct oprint; live_leaf].
  all: destruct (tcp p) as [tcpl |]; cbn [layer_of]; [| destruct oprint; live_leaf].
  all: destruct (retransmitted tcpl);
    [destruct (event_log p "retransmission") as [ev |] eqn:Hev;
       [apply csv_logging_event in Hev as [Hev Hcsv] | clear Hev];
       destruct oprint; live_leaf |].
  all: destruct (port_test "client" fprint Z.gtb p) as [[|] |];
    [ | | destruct oprint; live_leaf].
  all: cbn [protocol_dict results logfile stdout fst snd].
  all: try (match goal with |- context [client_hassh ?q ?d] =>
         destruct (client_hassh q d) as [record |] eqn:Hrec;
         [destruct (fingerprint_row Client _ _ _ Hrec) as [row Hrow];
          apply (fingerprint_role Client) in Hrec as [Hrec _] | clear Hrec];
         destruct oprint; live_leaf end).
  all: destruct (port_test "server" fprint Z.ltb p) as [[|] |];
    [ | destruct oprint; live_leaf | destruct oprint; live_leaf].
  all: cbn [protocol_dict results logfile stdout fst snd].
  all: match goal with |- context [server_hassh ?q ?d] =>
         destruct (server_hassh q d) as [record |] eqn:Hrec;
         [destruct (fingerprint_row Server _ _ _ Hrec) as [row Hrow];
          apply (fingerprint_role Server) in Hrec as [Hrec _] | clear Hrec];
         destruct oprint; live_leaf end.
Qed.

Lemma port_test_true (ro fprint : string) (cmp : Z -> Z -> bool) (p : packet) :
  port_test ro fprint cmp p = Ok true ->
  (String.eqb fprint ro || String.eqb fprint "all") = true
  /\ exists sp dp a b,
       tcp_srcport p = Ok sp /\ tcp_dstport p = Ok dp
       /\ py_int sp = Ok a /\ py_int dp = Ok b /\ cmp a b = true.
Proof.
  unfold port_test. destruct (String.eqb fprint ro || String.eqb fprint "all");
    [| discriminate].
  intros H. split; [reflexivity |]. peel H. injection H as H. eauto 10.
Qed.

(** The cases of a contribution. *)
Lemma contribution_kinds (fprint : string) (p : packet) (pdict : gmap string string) :
  (contribution fprint p pdict).1 = []
  \/ ((contribution fprint p pdict).2 = Ok tt
      /\ passes_filter p = true
      /\ exists record tcpl,
           (contribution fprint p pdict).1 = [record]
           /\ tcp p = Some tcpl
           /\ ((retransmitted tcpl = true /\ event_log p "retransmission" = Ok record)
               \/ (retransmitted tcpl = false
                   /\ exists ro, admits fprint ro = true
                                 /\ fingerprint ro p (banner_update p pdict) = Ok record))).
Proof.
  unfold contribution, replay_body, banner_update, passes_filter, note_protocol, bare,
         in_names, getattr.
  run.
  destruct (String.eqb (highest_layer p) "SSH") eqn:Hh; cbn [negb andb]; [| left; reflexivity].
  destruct (ssh p) as [sshl |] eqn:Hssh; cbn [layer_of]; [| left; reflexivity].
  destruct (sshl !! "protocol") as [banner |] eqn:Hproto; run;
    [destruct (flow_key p) as [key | e] eqn:Hkey; run; [| left; reflexivity] |].
  all: destruct (sshl !! "message_code") as [code |] eqn:Hcode; cbn [negb];
    [| left; reflexivity].
  all: destruct (String.eqb code "20") eqn:Hc; cbn [negb]; [| left; reflexivity].
  all: apply String.eqb_eq in Hc; subst code.
  all: destruct (tcp p) as [tcpl |] eqn:Htcp; cbn [layer_of]; [| left; reflexivity].
  all: destruct (retransmitted tcpl) eqn:Hre.
  all: try (destruct (event_log p "retransmission") as [ev |] eqn:Hev;
       [| left; reflexivity];
       right; split; [reflexivity |]; split; [apply bool_decide_eq_true; reflexivity |];
       exists ev, tcpl; split; [reflexivity |]; split; [reflexivity |]; left; auto).
  all: destruct (port_test "client" fprint Z.gtb p) as [[|] |] eqn:Hpc;
    [ | | left; reflexivity].
  all: cbn [protocol_dict results logfile stdout fst snd].
  all: try (match goal with |- context [client_hassh ?q ?d] =>
         destruct (client_hassh q d) as [record |] eqn:Hrec; [| left; reflexivity];
         right; split; [reflexivity |]; split; [apply bool_decide_eq_true; reflexivity |];
         exists record, tcpl; split; [reflexivity |]; split; [reflexivity |]; right;
         split; [exact Hre |]; exists Client;
         split; [exact (proj1 (port_test_true _ _ _ _ Hpc)) | exact Hrec] end).
  all: destruct (port_test "server" fprint Z.ltb p) as [[|] |] eqn:Hps;
    [ | left; reflexivity | left; reflexivity].
  all: cbn [protocol_dict results logfile stdout fst snd].
  all: match goal with |- context [server_hassh ?q ?d] =>
         destruct (server_hassh q d) as [record |] eqn:Hrec; [| left; reflexivity];
         right; split; [reflexivity |]; split; [apply bool_decide_eq_true; reflexivity |];
         exists record, tcpl; split; [reflexivity |]; split; [reflexivity |]; right;
         split; [exact Hre |]; exists Server;
         split; [exact (proj1 (port_test_true _ _ _ _ Hps)) | exact Hrec] end.
Qed.

Lemma port_test_parsed (ro fprint : string) (cmp : Z -> Z -> bool) (p : packet)
    (sip dip sp dp : string) (a b : Z) :
  addressed p sip dip sp dp -> py_int sp = Ok a -> py_int dp = Ok b ->
  port_test ro fprint cmp p
  = Ok ((String.eqb fprint ro || String.eqb fprint "all") && cmp a b).
Proof.
  intros [_ _ Hsp Hdp] Ha Hb. unfold port_test.
  destruct (String.eqb fprint ro || String.eqb fprint "all"); [| reflexivity].
  rewrite Hsp. cbn [mbind res_bind]. rewrite Ha. cbn [mbind res_bind].
  rewrite Hdp. cbn [mbind res_bind]. rewrite Hb. reflexivity.
Qed.

(** X4. For a KEXINIT packet that is not flagged as retransmitted, carries
    its addresses and has parsable ports, the replay body adds the record
    of the role the ports decide when the role filter admits that role, and
    nothing otherwise: the filter [client] keeps client records only, the
    filter [server] server records only, [all] both, and any other filter
    none. The body does not raise. *)
Theorem role_filter_selects
    (pcap fprint : string) (oprint : bool) (p : packet) (sshl tcpl : layer)
    (sip dip sp dp : string) (a b : Z) (w : world)
    (Hk : kexinit p sshl tcpl) (Hre : retransmitted tcpl = false)
    (Haddr : addressed p sip dip sp dp)
    (Ha : py_int sp = Ok a) (Hb : py_int dp = Ok b) :
  (replay_body pcap fprint oprint p w).2 = Ok tt
  /\ match direction a b with
     | Some ro =>
         if admits fprint ro then
           exists record,
             fingerprint ro p (protocol_dict (replay_body pcap fprint oprint p w).1)
             = Ok record
             /\ results (replay_body pcap fprint oprint p w).1 = (results w ++ [record])%list
         else results (replay_body pcap fprint oprint p w).1 = results w
     | None => results (replay_body pcap fprint oprint p w).1 = results w
     end.
Proof.
  pose proof (flow_key_addressed _ _ _ _ _ Haddr) as Hkey.
  pose proof (kex_ssh _ _ _ Hk) as Hssh'.
  destruct (noted_fields sshl (key_format sip sp dip sp) w) as (Hr & Hl & Hs).
  set (w1 := noted sshl (key_format sip sp dip sp) w) in *.
  assert (Hbody : replay_body pcap fprint oprint p w
    = match direction a b with
      | Some ro =>
          if admits fprint ro then
            match fingerprint ro p (protocol_dict w1) with
            | Ok record =>
                (World (protocol_dict w1) (results w ++ [record]) (logfile w)
                       (stdout w ++ (if oprint then [summary ro (Some pcap) record] else [])),
                 Ok tt)
            | Raise e => (w1, Raise e)
            end
          else (w1, Ok tt)
      | None => (w1, Ok tt)
      end).
  { unfold replay_body. enter_kexinit Hk Hkey. fold w1. rewrite Hre.
    rewrite (port_test_parsed "client" fprint Z.gtb _ _ _ _ _ _ _ Haddr Ha Hb).
    rewrite (port_test_parsed "server" fprint Z.ltb _ _ _ _ _ _ _ Haddr Ha Hb).
    unfold direction, admits.
    destruct (a >? b) eqn:Hgt; cbn [role_name].
    - rewrite andb_true_r.
      destruct (String.eqb fprint "client" || String.eqb fprint "all"); cbn [fingerprint].
      + destruct (client_hassh p (protocol_dict w1)); [| reflexivity].
        rewrite Hr, Hl, Hs.
        destruct oprint; cbn [negb]; [reflexivity | rewrite app_nil_r; reflexivity].
      + assert (Hlt : (a <? b) = false) by lia. rewrite Hlt, andb_false_r. reflexivity.
    - rewrite andb_false_r. destruct (a <? b) eqn:Hlt; cbn [role_name].
      + rewrite andb_true_r.
        destruct (String.eqb fprint "server" || String.eqb fprint "all"); cbn [fingerprint];
          [| reflexivity].
        destruct (server_hassh p (protocol_dict w1)); [| reflexivity].
        rewrite Hr, Hl, Hs.
        destruct oprint; cbn [negb]; [reflexivity | rewrite app_nil_r; reflexivity].
      + rewrite andb_false_r. reflexivity. }
  rewrite Hbody.
  destruct (direction a b) as [ro |]; [| auto].
  destruct (admits fprint ro); [| auto].
  destruct (fingerprint_addressed ro p (protocol_dict w1) _ _ _ _ _ Hssh' Haddr)
    as (record & Hrec & _).
  rewrite Hrec. cbn [fst snd results protocol_dict].
  split; [reflexivity |]. exists record. auto.
Qed.

Lemma role_filter_selects_witness :
  results (replay_body "a.pcap" "client" false Sample.server_kexinit start).1 = []
  /\ (exists record,
        results (replay_body "a.pcap" "server" false Sample.server_kexinit start).1
        = [record])
  /\ results (replay_body "a.pcap" "none" false Sample.server_kexinit start).1 = [].
Proof.
  assert (Hre : retransmitted (Sample.mk_layer [("srcport", "22"); ("dstport", "51000")])
                = false) by (vm_compute; reflexivity).
  assert (Hk : kexinit Sample.server_kexinit Sample.kexinit_fields
                       (Sample.mk_layer [("srcport", "22"); ("dstport", "51000")]))
    by (split; [reflexivity | reflexivity | vm_compute; reflexivity | reflexivity]).
  assert (Haddr : addressed Sample.server_kexinit "10.0.0.2" "10.0.0.1" "22" "51000")
    by (split; vm_compute; reflexivity).
  split; [| split].
  - apply (role_filter_selects "a.pcap" "client" false _ _ _ _ _ _ _ 22 51000 start
             Hk Hre Haddr eq_refl eq_refl).
  - destruct (role_filter_selects "a.pcap" "server" false _ _ _ _ _ _ _ 22 51000 start
                Hk Hre Haddr eq_refl eq_refl) as [_ (record & _ & Hres)].
    exists record. exact Hres.
  - apply (role_filter_selects "a.pcap" "none" false _ _ _ _ _ _ _ 22 51000 start
             Hk Hre Haddr eq_refl eq_refl).
Defined.

(** X1. The replay body only appends. Whatever the packet, the role filter
    and the world, it leaves the log alone, changes the banner cache as
    [banner_update] says, puts the records the packet contributes behind
    the results that were there, and prints one summary for each
    fingerprint record among them when printing is on and nothing
    otherwise. What is contributed, and whether the body raises, depends on
    the packet, the role filter and the banner cache only: on another
    world with the same cache, with another file name and print flag, the
    same records are added and the same exception is raised. *)
Theorem replay_body_only_appends
    (pcap pcap' fprint : string) (oprint oprint' : bool) (p : packet) (w : world)
    (rs : list dict) (lf : list logline) (so : list console) :
  exists delta,
    replay_body pcap fprint oprint p w
    = (World (banner_update p (protocol_dict w)) (results w ++ delta) (logfile w)
             (stdout w ++ summaries (Some pcap) oprint delta),
       (replay_body pcap fprint oprint p w).2)
    /\ summaries (Some pcap) false delta = []
    /\ results (replay_body pcap' fprint oprint' p (World (protocol_dict w) rs lf so)).1
       = rs ++ delta
    /\ (replay_body pcap' fprint oprint' p (World (protocol_dict w) rs lf so)).2
       = (replay_body pcap fprint oprint p w).2.
Proof.
  exists (contribution fprint p (protocol_dict w)).1.
  rewrite !replay_body_contribution. cbn [fst snd protocol_dict results].
  repeat split.
Qed.

(** X2. The live body leaves the results alone, changes the banner cache as
    the replay body does, raises when the replay body raises, and logs the
    lines of the records the replay body adds: each of them for the JSON
    format, the rows of the fingerprint records for the CSV format,
    nothing for no format. *)
Theorem live_body_logs_what_replay_adds
    (pcap fprint : string) (lf : pyval) (oprint oprint' : bool) (p : packet) (w : world) :
  exists delta,
    results (replay_body pcap fprint oprint' p w).1 = results w ++ delta
    /\ live_body fprint lf oprint p w
       = (World (protocol_dict (replay_body pcap fprint oprint' p w).1)
                (results w)
                (logfile w ++ log_lines lf delta)
                (stdout w ++ summaries None oprint delta),
          (replay_body pcap fprint oprint' p w).2).
Proof.
  exists (contribution fprint p (protocol_dict w)).1.
  rewrite live_body_contribution, replay_body_contribution.
  cbn [fst snd protocol_dict results]. split; reflexivity.
Qed.

(** X3. Whatever the packet, the role filter and the world, the replay body
    adds no record or exactly one. When it adds one, it does not raise,
    the packet passes both filters (highest layer SSH, message code 20),
    and the record is the retransmission event of a packet flagged as
    retransmitted, or else a fingerprint of a role the filter admits,
    built on the cache as the packet itself leaves it. In particular a
    packet at which the body raises adds nothing. *)
Theorem packet_adds_at_most_one_record
    (pcap fprint : string) (oprint : bool) (p : packet) (w : world) :
  exists delta,
    results (replay_body pcap fprint oprint p w).1 = results w ++ delta
    /\ (delta = []
        \/ ((replay_body pcap fprint oprint p w).2 = Ok tt
            /\ passes_filter p = true
            /\ exists record tcpl,
                 delta = [record] /\ tcp p = Some tcpl
                 /\ ((retransmitted tcpl = true
                      /\ event_log p "retransmission" = Ok record
                      /\ is_event record = true /\ role_of record = None)
                     \/ (retransmitted tcpl = false
                         /\ exists ro,
                              admits fprint ro = true
                              /\ fingerprint ro p
                                   (protocol_dict (replay_body pcap fprint oprint p w).1)
                                 = Ok record
                              /\ role_of record = Some ro /\ is_event record = false)))).
Proof.
  exists (contribution fprint p (protocol_dict w)).1.
  rewrite replay_body_contribution. cbn [fst snd protocol_dict results].
  split; [reflexivity |].
  destruct (contribution_kinds fprint p (protocol_dict w))
    as [Hnil | (Hok & Hpass & record & tcpl & Hone & Htcp & Hkind)]; [left; exact Hnil |].
  right. split; [exact Hok |]. split; [exact Hpass |].
  exists record, tcpl. split; [exact Hone |]. split; [exact Htcp |].
  destruct Hkind as [[Hre Hev] | (Hre & ro & Hadm & Hrec)].
  - left. split; [exact Hre |]. split; [exact Hev |].
    pose proof (csv_logging_event p record Hev) as [Hnone _].
    apply event_log_inv in Hev as (? & ? & ? & ? & _ & ->). split; [reflexivity | exact Hnone].
  - right. split; [exact Hre |]. exists ro.
    pose proof (fingerprint_role ro p _ record Hrec) as [Hrole Hev]. auto.
Qed.

(** ** Whole runs *)

Lemma summaries_app (pcap : option string) (oprint : bool) (l1 l2 : list dict) :
  summaries pcap oprint (l1 ++ l2) = summaries pcap oprint l1 ++ summaries pcap oprint l2.
Proof. unfold summaries. destruct oprint; [apply omap_app | reflexivity]. Qed.

Lemma log_lines_app (lf : pyval) (l1 l2 : list dict) :
  log_lines lf (l1 ++ l2) = log_lines lf l1 ++ log_lines lf l2.
Proof.
  unfold log_lines. destruct (decide (lf = PStr "json")); [apply map_app |].
  destruct (decide (lf = PStr "csv")); [apply omap_app | reflexivity].
Qed.

Lemma for_each_replay (pcap fprint : string) (oprint : bool) (cap : list packet) (w : world) :
  for_each (replay_body pcap fprint oprint) cap w
  = (World (trace fprint cap (protocol_dict w)).1.1
           (results w ++ (trace fprint cap (protocol_dict w)).1.2)
           (logfile w)
           (stdout w ++ summaries (Some pcap) oprint (trace fprint cap (protocol_dict w)).1.2),
     (trace fprint cap (protocol_dict w)).2).
Proof.
  revert w. induction cap as [| p rest IH]; intros w.
  - destruct w. cbn. unfold summaries. destruct oprint; cbn; rewrite !app_nil_r; reflexivity.
  - cbn [for_each trace]. run. rewrite replay_body_contribution.
    destruct (contribution fprint p (protocol_dict w)) as [records [[] | e]]; cbn [fst snd].
    + rewrite IH. cbn [protocol_dict results logfile stdout].
      destruct (trace fprint rest (banner_update p (protocol_dict w))) as [[pd' records'] r].
      cbn [fst snd]. rewrite summaries_app, !app_assoc. reflexivity.
    + reflexivity.
Qed.

Lemma for_each_live (fprint : string) (lf : pyval) (oprint : bool) (cap : list packet)
    (w : world) :
  for_each (live_body fprint lf oprint) cap w
  = (World (trace fprint cap (protocol_dict w)).1.1
           (results w)
           (logfile w ++ log_lines lf (trace fprint cap (protocol_dict w)).1.2)
           (stdout w ++ summaries None oprint (trace fprint cap (protocol_dict w)).1.2),
     (trace fprint cap (protocol_dict w)).2).
Proof.
  revert w. induction cap as [| p rest IH]; intros w.
  - destruct w. cbn. unfold summaries, log_lines.
    destruct oprint, (decide (lf = PStr "json")), (decide (lf = PStr "csv"));
      cbn; rewrite !app_nil_r; reflexivity.
  - cbn [for_each trace]. run. rewrite live_body_contribution.
    destruct (contribution fprint p (protocol_dict w)) as [records [[] | e]]; cbn [fst snd].
    + rewrite IH. cbn [protocol_dict results logfile stdout].
      destruct (trace fprint rest (banner_update p (protocol_dict w))) as [[pd' records'] r].
      cbn [fst snd]. rewrite summaries_app, log_lines_app, !app_assoc. reflexivity.
    + reflexivity.
Qed.

Lemma process_pcap_file_trace (cap : list packet) (pcap fprint : string) (oprint : bool)
    (w : world) :
  process_pcap_file cap pcap fprint oprint w
  = (World (trace fprint cap ∅).1.1
           (trace_records fprint cap)
           (logfile w)
           (stdout w ++ summaries (Some pcap) oprint (trace_records fprint cap)
                   ++ match (trace fprint cap ∅).2 with
                      | Ok _ => []
                      | Raise e => [ErrorLine e]
                      end),
     Ok (trace_records fprint cap)).
Proof.
  rewrite process_pcap_file_run, for_each_replay. unfold trace_records.
  cbn [protocol_dict results logfile stdout app].
  destruct (trace fprint cap ∅) as [[pd records] [[] | e]]; cbn [fst snd].
  - rewrite app_nil_r. reflexivity.
  - rewrite app_assoc. reflexivity.
Qed.

(** X5. The list [process_pcap_file] returns depends on the packets and the
    role filter only: the name of the capture file, the print flag and the
    world before the call (its banner cache, its results, its sinks) have
    no part in it, each call starting from an empty cache and an empty
    list. The call never writes to the log, and with printing off it
    prints nothing but the line of an exception. *)
Theorem process_pcap_file_depends_on_capture_only
    (cap : list packet) (pcap pcap' fprint : string) (oprint oprint' : bool) (w w' : world) :
  returned (process_pcap_file cap pcap fprint oprint w)
  = returned (process_pcap_file cap pcap' fprint oprint' w')
  /\ (process_pcap_file cap pcap fprint oprint w).2
     = Ok (returned (process_pcap_file cap pcap fprint oprint w))
  /\ logfile (process_pcap_file cap pcap fprint oprint w).1 = logfile w
  /\ (exists errors,
        stdout (process_pcap_file cap pcap fprint false w).1 = stdout w ++ errors
        /\ (length errors <= 1)%nat
        /\ Forall (fun c => exists e, c = ErrorLine e) errors).
Proof.
  rewrite !process_pcap_file_trace. unfold returned. cbn [fst snd logfile stdout summaries].
  repeat split.
  destruct (trace fprint cap ∅).2 as [[] | e]; eexists; (split; [reflexivity |]).
  - split; [simpl; lia | constructor].
  - split; [simpl; lia | repeat constructor; eauto].
Qed.

Lemma trace_app (fprint : string) (l1 l2 : list packet) (pdict : gmap string string) :
  trace fprint (l1 ++ l2) pdict
  = match trace fprint l1 pdict with
    | (pd1, records1, Ok _) =>
        let '(pd2, records2, r) := trace fprint l2 pd1 in
        (pd2, records1 ++ records2, r)
    | (pd1, records1, Raise e) => (pd1, records1, Raise e)
    end.
Proof.
  revert pdict. induction l1 as [| p rest IH]; intros pdict.
  - cbn. destruct (trace fprint l2 pdict) as [[pd2 records2] r]. reflexivity.
  - cbn [app trace].
    destruct (contribution fprint p pdict) as [records [[] | e]]; [| reflexivity].
    rewrite IH.
    destruct (trace fprint rest (banner_update p pdict)) as [[pd1 records1] [[] | e]];
      [| reflexivity].
    destruct (trace fprint l2 pd1) as [[pd2 records2] r].
    rewrite app_assoc. reflexivity.
Qed.

(** X6. Replay is monotone in the capture: the list returned for a capture
    begins with the list returned for any of its prefixes, whatever
    happens in the rest, and what the longer capture adds is what the rest
    contributes from the banner cache the prefix leaves. *)
Theorem replay_of_a_prefix_is_a_prefix
    (cap more : list packet) (pcap fprint : string) (oprint : bool) (w : world) :
  exists added,
    returned (process_pcap_file (cap ++ more) pcap fprint oprint w)
    = returned (process_pcap_file cap pcap fprint oprint w) ++ added
    /\ ((trace fprint cap ∅).2 = Ok tt ->
        added = (trace fprint more (trace fprint cap ∅).1.1).1.2)
    /\ ((trace fprint cap ∅).2 <> Ok tt -> added = []).
Proof.
  rewrite !process_pcap_file_trace. unfold returned, trace_records. cbn [snd].
  rewrite trace_app.
  destruct (trace fprint cap ∅) as [[pd1 records1] [[] | e]]; cbn [fst snd].
  - destruct (trace fprint more pd1) as [[pd2 records2] r]. cbn [fst snd].
    exists records2. split; [reflexivity |]. split; [reflexivity | congruence].
  - exists []. rewrite app_nil_r. split; [reflexivity |]. split; [discriminate | reflexivity].
Qed.

(** ** Live capture against replay *)

Lemma live_capture_trace (sniffed : list packet) (fprint : string) (lf : pyval)
    (oprint : bool) (w : world) :
  live_capture sniffed fprint lf oprint w
  = (World (trace fprint sniffed ∅).1.1
           (results w)
           (logfile w ++ header_lines lf ++ log_lines lf (trace_records fprint sniffed))
           (stdout w ++ summaries None oprint (trace_records fprint sniffed)
                   ++ match (trace fprint sniffed ∅).2 with
                      | Ok _ => [Exiting]
                      | Raise _ => []
                      end),
     (trace fprint sniffed ∅).2).
Proof.
  unfold live_capture, header_lines, trace_records.
  destruct (decide (lf = PStr "csv")) as [Hcsv | Hcsv]; run; rewrite for_each_live;
    cbn [protocol_dict results logfile stdout];
    destruct (trace fprint sniffed ∅) as [[pd records] [[] | e]]; cbn [fst snd app];
    rewrite <- ?app_assoc, ?app_nil_r; reflexivity.
Qed.

(** X7. Live capture and replay agree on every sequence of packets: the log
    of a live capture is the header (for CSV) followed by the lines of the
    records a replay of the same packets returns, each record as JSON for
    the JSON format, the rows of the fingerprint records for CSV, nothing
    without a format. Live capture never touches the results. *)
Theorem live_log_is_replay_results
    (cap : list packet) (pcap fprint : string) (lf : pyval) (oprint oprint' : bool)
    (w w' : world) :
  logfile (live_capture cap fprint lf oprint w).1
  = logfile w ++ header_lines lf
      ++ log_lines lf (returned (process_pcap_file cap pcap fprint oprint' w'))
  /\ results (live_capture cap fprint lf oprint w).1 = results w.
Proof.
  rewrite live_capture_trace, process_pcap_file_trace. split; reflexivity.
Qed.

(** X8. An exception of the loop body is not handled in live capture: the
    capture raises an exception exactly when a replay of the same packets
    prints the error line of that exception, and then the closing message
    is not printed; when no packet raises the closing message is the last
    thing printed. *)
Theorem live_capture_raises_where_replay_reports
    (cap : list packet) (pcap fprint : string) (lf : pyval) (oprint : bool)
    (w w' : world) (e : exn) :
  ((live_capture cap fprint lf oprint w).2 = Raise e
   <-> stdout (process_pcap_file cap pcap fprint false w').1 = stdout w' ++ [ErrorLine e])
  /\ ((live_capture cap fprint lf oprint w).2 = Raise e ->
      Exiting ∉ stdout (live_capture cap fprint lf oprint start).1)
  /\ ((live_capture cap fprint lf oprint w).2 = Ok tt ->
      exists out, stdout (live_capture cap fprint lf oprint w).1 = out ++ [Exiting]).
Proof.
  rewrite !live_capture_trace, process_pcap_file_trace.
  cbn [fst snd stdout summaries app].
  destruct (trace fprint cap ∅).2 as [[] | e0]; split; [| split | | split].
  - split; [discriminate |]. rewrite app_nil_r. intros H.
    apply (f_equal length) in H. rewrite length_app in H. simpl in H. lia.
  - discriminate.
  - intros _. eexists. rewrite app_assoc. reflexivity.
  - split; [intros [= ->]; reflexivity |].
    intros H. apply app_inv_head in H. congruence.
  - intros _. rewrite app_nil_r. unfold summaries.
    destruct oprint; [| apply not_elem_of_nil].
    intros Hin. apply list_elem_of_omap in Hin as (record & _ & Hs).
    unfold summary_of in Hs. destruct (role_of record) as [[|] |]; discriminate.
  - discriminate.
Qed.

(** ** What [main] logs for a capture file *)

Lemma built_cases (record : dict) :
  built record ->
  (is_event record = true /\ csv_logging record = Raise (UnboundLocalError "hasshType"))
  \/ (is_event record = false /\ exists row, csv_logging record = Ok row).
Proof.
  intros [[p Hev] | (ro & p & pd & Hrec)].
  - left. split; [| apply (csv_logging_event p); exact Hev].
    apply event_log_inv in Hev as (? & ? & ? & ? & _ & ->). reflexivity.
  - right. split; [apply (fingerprint_role ro p pd); exact Hrec |].
    apply (fingerprint_row ro p pd); exact Hrec.
Qed.

Lemma contribution_built (fprint : string) (p : packet) (pdict : gmap string string) :
  Forall built (contribution fprint p pdict).1.
Proof.
  destruct (contribution_kinds fprint p pdict)
    as [-> | (_ & _ & record & tcpl & -> & _ & [[_ Hev] | (_ & ro & _ & Hrec)])].
  - constructor.
  - constructor; [| constructor]. left. eauto.
  - constructor; [| constructor]. right. eauto.
Qed.

Lemma trace_built (fprint : string) (cap : list packet) (pdict : gmap string string) :
  Forall built (trace fprint cap pdict).1.2.
Proof.
  revert pdict. induction cap as [| p rest IH]; intros pdict; [constructor |].
  cbn [trace]. pose proof (contribution_built fprint p pdict) as Hc.
  destruct (contribution fprint p pdict) as [records [[] | e]]; cbn [fst snd] in *.
  - specialize (IH (banner_update p pdict)).
    destruct (trace fprint rest (banner_update p pdict)) as [[pd' records'] r].
    cbn [fst snd] in *. apply Forall_app. auto.
  - exact Hc.
Qed.

Lemma log_lines_json (records : list dict) :
  log_lines (PStr "json") records = map JsonLine records.
Proof. unfold log_lines. case_decide; [reflexivity | congruence]. Qed.

Lemma log_lines_csv (records : list dict) :
  log_lines (PStr "csv") records = omap csv_line records.
Proof.
  unfold log_lines. case_decide; [discriminate |]. case_decide; [reflexivity | congruence].
Qed.

Lemma header_lines_csv : header_lines (PStr "csv") = [TextLine csv_header].
Proof. unfold header_lines. case_decide; [reflexivity | congruence]. Qed.

Lemma header_lines_json : header_lines (PStr "json") = [].
Proof. unfold header_lines. case_decide; [discriminate | reflexivity]. Qed.

Lemma json_loop (records : list dict) (w : world) :
  for_each (fun record => logger_info (JsonLine record)) records w
  = (World (protocol_dict w) (results w) (logfile w ++ map JsonLine records) (stdout w),
     Ok tt).
Proof.
  revert w. induction records as [| record rest IH]; intros w.
  - destruct w. cbn. rewrite app_nil_r. reflexivity.
  - cbn [for_each]. run. rewrite IH. cbn [protocol_dict results logfile stdout map].
    rewrite <- app_assoc. reflexivity.
Qed.

Lemma csv_loop (records : list dict) (w : world) :
  Forall built records ->
  for_each (fun record =>
              csv_record ← lift (csv_logging record);
              logger_info (TextLine csv_record)) records w
  = (World (protocol_dict w) (results w)
           (logfile w ++ omap csv_line (before_event records)) (stdout w),
     if forallb (fun record => negb (is_event record)) records
     then Ok tt else Raise (UnboundLocalError "hasshType")).
Proof.
  intros Hall. revert w. induction Hall as [| record rest Hb _ IH]; intros w.
  - destruct w. cbn. rewrite app_nil_r. reflexivity.
  - cbn [for_each before_event forallb]. run.
    destruct (built_cases record Hb) as [[He Hcsv] | [He [row Hcsv]]]; rewrite He, Hcsv.
    + destruct w. cbn. rewrite app_nil_r. reflexivity.
    + cbn [negb andb]. rewrite IH. cbn [protocol_dict results logfile stdout omap list_omap].
      unfold csv_line at 2. rewrite Hcsv. rewrite <- app_assoc. reflexivity.
Qed.

Lemma before_event_all (records : list dict) :
  forallb (fun record => negb (is_event record)) records = true ->
  before_event records = records.
Proof.
  induction records as [| record rest IH]; [reflexivity |].
  cbn. destruct (is_event record); [discriminate |]. cbn. intros H. rewrite IH; auto.
Qed.

(** X9. With the JSON format, [main] on a capture file never raises and
    writes one JSON line for each record [process_pcap_file] returns, in
    order: the log it leaves is the log a live capture of the same packets
    leaves. *)
Theorem main_json_log_is_live_json_log
    (cap : list packet) (pcap fprint : string) (oprint oprint' : bool) (w : world) :
  (main_read_file cap pcap fprint (PStr "json") oprint w).2 = Ok tt
  /\ logfile (main_read_file cap pcap fprint (PStr "json") oprint w).1
     = logfile w ++ map JsonLine (returned (process_pcap_file cap pcap fprint oprint w))
  /\ logfile (main_read_file cap pcap fprint (PStr "json") oprint w).1
     = logfile (live_capture cap fprint (PStr "json") oprint' w).1.
Proof.
  rewrite live_capture_trace. unfold main_read_file. run.
  rewrite !process_pcap_file_trace. unfold returned. cbn [fst snd].
  rewrite decide_True by reflexivity. rewrite json_loop.
  cbn [fst snd logfile]. rewrite header_lines_json, log_lines_json.
  auto.
Qed.

(** X10. With the CSV format, [main] on a capture file writes the header
    and then the rows of the returned records up to the first
    retransmission event. It ends normally exactly when the returned list
    holds no event, and then its log is the log of a live capture of the
    same packets; otherwise it ends on the [UnboundLocalError] of
    [csv_logging] at the first event, and the rows of the records after
    it are never written. *)
Theorem main_csv_log_stops_at_first_event
    (cap : list packet) (pcap fprint : string) (oprint oprint' : bool) (w : world) :
  let output := returned (process_pcap_file cap pcap fprint oprint w) in
  let run := main_read_file cap pcap fprint (PStr "csv") oprint w in
  logfile run.1
  = logfile w ++ TextLine csv_header :: omap csv_line (before_event output)
  /\ (run.2 = Ok tt <-> Forall (fun record => is_event record = false) output)
  /\ (run.2 = Ok tt ->
      logfile run.1 = logfile (live_capture cap fprint (PStr "csv") oprint' w).1)
  /\ (run.2 <> Ok tt -> run.2 = Raise (UnboundLocalError "hasshType")).
Proof.
  cbv zeta. rewrite live_capture_trace. unfold main_read_file. run.
  rewrite !process_pcap_file_trace. unfold returned. cbn [fst snd].
  rewrite decide_False by discriminate. rewrite decide_True by reflexivity.
  run. rewrite csv_loop by apply trace_built.
  cbn [fst snd logfile]. rewrite header_lines_csv, log_lines_csv.
  set (records := trace_records fprint cap).
  split; [rewrite <- app_assoc; reflexivity |].
  destruct (forallb (fun record => negb (is_event record)) records) eqn:Hall.
  - split; [| split; [| congruence]].
    + split; [intros _ | reflexivity].
      rewrite forallb_forall in Hall. apply Forall_forall. intros r Hr.
      apply list_elem_of_In in Hr. specialize (Hall r Hr).
      destruct (is_event r); [discriminate | reflexivity].
    + intros _. rewrite before_event_all by exact Hall.
      rewrite <- app_assoc. reflexivity.
  - split; [| split; [discriminate | reflexivity]].
    split; [discriminate |]. intros HF. exfalso.
    assert (forallb (fun record => negb (is_event record)) records = true); [| congruence].
    apply forallb_forall. intros r Hr. rewrite Forall_forall in HF.
    rewrite (HF r); [reflexivity |]. apply list_elem_of_In. exact Hr.
Qed.

(** ** A directory of capture files *)

Lemma before_event_app (l1 l2 : list dict) :
  before_event (l1 ++ l2)
  = if forallb (fun record => negb (is_event record)) l1
    then l1 ++ before_event l2 else before_event l1.
Proof.
  induction l1 as [| record rest IH]; [reflexivity |].
  cbn. destruct (is_event record); [reflexivity |]. cbn. rewrite IH.
  destruct (forallb _ rest); reflexivity.
Qed.

Lemma directory_file_run (fprint : string) (lf : pyval) (oprint : bool)
    (file : dir_entry) (w : world) :
  let records := trace_records fprint (entry_packets file) in
  logfile (directory_file fprint lf oprint file w).1
  = logfile w ++ (if decide (lf = PStr "json") then map JsonLine records
                  else if decide (lf = PStr "csv") then omap csv_line (before_event records)
                  else [])
  /\ (directory_file fprint lf oprint file w).2
     = if decide (lf = PStr "csv") then
         if forallb (fun record => negb (is_event record)) records
         then Ok tt else Raise (UnboundLocalError "hasshType")
       else Ok tt.
Proof.
  cbv zeta. unfold directory_file. run. rewrite process_pcap_file_trace.
  destruct (decide (lf = PStr "json")) as [Hj | Hj].
  - rewrite json_loop. cbn [fst snd logfile]. split; [reflexivity |].
    case_decide; [congruence | reflexivity].
  - destruct (decide (lf = PStr "csv")) as [Hc | Hc].
    + rewrite csv_loop by apply trace_built. cbn [fst snd logfile]. auto.
    + cbn [fst snd logfile]. rewrite app_nil_r. auto.
Qed.

Lemma directory_loop (files : list dir_entry) (fprint : string) (lf : pyval)
    (oprint : bool) (w : world) :
  let records := flat_map (fun file => trace_records fprint (entry_packets file)) files in
  logfile (for_each (directory_file fprint lf oprint) files w).1
  = logfile w ++ (if decide (lf = PStr "json") then map JsonLine records
                  else if decide (lf = PStr "csv") then omap csv_line (before_event records)
                  else [])
  /\ (for_each (directory_file fprint lf oprint) files w).2
     = if decide (lf = PStr "csv") then
         if forallb (fun record => negb (is_event record)) records
         then Ok tt else Raise (UnboundLocalError "hasshType")
       else Ok tt.
Proof.
  cbv zeta. revert w. induction files as [| file rest IH]; intros w.
  - cbn. repeat case_decide; rewrite app_nil_r; auto.
  - cbn [for_each flat_map]. run.
    pose proof (directory_file_run fprint lf oprint file w) as [Hl Hs]. cbv zeta in Hl, Hs.
    set (recs := trace_records fprint (entry_packets file)) in *.
    destruct (directory_file fprint lf oprint file w) as [w1 r1]. cbn [fst snd] in Hl, Hs.
    subst r1. destruct (IH w1) as [IHl IHs].
    rewrite before_event_app, forallb_app, map_app.
    destruct (decide (lf = PStr "json")) as [Hj | Hj].
    + rewrite decide_False by congruence. rewrite IHl, IHs, Hl.
      rewrite decide_False by congruence. rewrite app_assoc.
      split; [reflexivity | case_decide; [congruence | reflexivity]].
    + destruct (decide (lf = PStr "csv")) as [Hc | Hc].
      * destruct (forallb (fun record => negb (is_event record)) recs) eqn:Hall.
        -- rewrite IHl, IHs, Hl. rewrite (before_event_all recs Hall).
           cbn [andb]. rewrite omap_app, app_assoc. auto.
        -- cbn [fst snd andb]. auto.
      * rewrite IHl, IHs, Hl. rewrite !app_nil_r. auto.
Qed.

Lemma directory_records_trace (scandir : list dir_entry) (fprint : string) :
  directory_records scandir fprint
  = flat_map (fun file => trace_records fprint (entry_packets file))
             (List.filter is_capture_file scandir).
Proof.
  unfold directory_records. induction (List.filter is_capture_file scandir) as [| f l IH];
    [reflexivity |].
  cbn [flat_map]. rewrite IH, process_pcap_file_trace. reflexivity.
Qed.

(** X11. [main] on a directory replays each selected capture file on its
    own, from an empty banner cache, in the order of the entries; entries
    that are not selected leave no trace in the log. With the JSON format
    it never raises and logs every record of every file. With the CSV
    format it writes the header once, before any file, and then the rows
    of the records up to the first retransmission event of the whole
    directory, where it ends on the [UnboundLocalError] of [csv_logging]:
    the files after that one are not replayed into the log. *)
Theorem directory_log
    (scandir : list dir_entry) (fprint : string) (oprint : bool) (w : world) :
  let records := directory_records scandir fprint in
  let json := main_read_directory scandir fprint (PStr "json") oprint w in
  let csv := main_read_directory scandir fprint (PStr "csv") oprint w in
  json.2 = Ok tt
  /\ logfile json.1 = logfile w ++ map JsonLine records
  /\ logfile csv.1
     = logfile w ++ TextLine csv_header :: omap csv_line (before_event records)
  /\ (csv.2 = Ok tt <-> forallb (fun record => negb (is_event record)) records = true)
  /\ (csv.2 <> Ok tt -> csv.2 = Raise (UnboundLocalError "hasshType")).
Proof.
  cbv zeta. rewrite directory_records_trace. unfold main_read_directory.
  set (files := List.filter is_capture_file scandir).
  split; [| split; [| split; [| split]]].
  - rewrite decide_False by discriminate. run.
    pose proof (directory_loop files fprint (PStr "json") oprint w) as [_ Hs].
    cbv zeta in Hs. rewrite Hs. case_decide; [discriminate | reflexivity].
  - rewrite decide_False by discriminate. run.
    pose proof (directory_loop files fprint (PStr "json") oprint w) as [Hl _].
    cbv zeta in Hl. rewrite Hl. case_decide; [reflexivity | congruence].
  - rewrite decide_True by reflexivity. run.
    match goal with |- context [for_each _ files ?w0] =>
      pose proof (directory_loop files fprint (PStr "csv") oprint w0) as [Hl _] end.
    cbv zeta in Hl. rewrite Hl. cbn [logfile].
    case_decide; [discriminate |]. case_decide; [| congruence].
    rewrite <- app_assoc. reflexivity.
  - rewrite decide_True by reflexivity. run.
    match goal with |- context [for_each _ files ?w0] =>
      pose proof (directory_loop files fprint (PStr "csv") oprint w0) as [_ Hs] end.
    cbv zeta in Hs. rewrite Hs. case_decide; [| congruence].
    destruct (forallb _ _); split; congruence.
  - rewrite decide_True by reflexivity. run.
    match goal with |- context [for_each _ files ?w0] =>
      pose proof (directory_loop files fprint (PStr "csv") oprint w0) as [_ Hs] end.
    cbv zeta in Hs. rewrite Hs. case_decide; [| congruence].
    destruct (forallb _ _); congruence.
Qed.

(** ** The banner cache over a run *)

Lemma banner_update_eq (p : packet) (pdict : gmap string string) :
  banner_update p pdict
  = match banner_of p with
    | Some (key, banner) => <[key := banner]> pdict
    | None => pdict
    end.
Proof.
  unfold banner_update, banner_of.
  destruct (String.eqb (highest_layer p) "SSH"); [| reflexivity].
  destruct (ssh p) as [sshl |]; [| reflexivity].
  destruct (sshl !! "protocol"); [| reflexivity].
  destruct (flow_key p); reflexivity.
Qed.

Lemma banner_update_lookup (p : packet) (pdict : gmap string string) (key : string) :
  banner_update p pdict !! key
  = match banner_of p with
    | Some (k, banner) => if String.eqb k key then Some banner else pdict !! key
    | None => pdict !! key
    end.
Proof.
  rewrite banner_update_eq. destruct (banner_of p) as [[k banner] |]; [| reflexivity].
  destruct (String.eqb k key) eqn:Hk.
  - apply String.eqb_eq in Hk. subst. apply lookup_insert_eq.
  - apply String.eqb_neq in Hk. apply lookup_insert_ne. exact Hk.
Qed.

Lemma trace_cache_lookup (fprint : string) (cap : list packet) (pdict : gmap string string)
    (key : string) :
  (trace fprint cap pdict).2 = Ok tt ->
  (trace fprint cap pdict).1.1 !! key
  = match last_banner key cap with
    | Some banner => Some banner
    | None => pdict !! key
    end.
Proof.
  revert pdict. induction cap as [| p rest IH]; intros pdict; [reflexivity |].
  cbn [trace last_banner].
  destruct (contribution fprint p pdict) as [records [[] | e]]; [| discriminate].
  specialize (IH (banner_update p pdict)).
  destruct (trace fprint rest (banner_update p pdict)) as [[pd' records'] r].
  cbn [fst snd] in *. intros Hr. rewrite (IH Hr).
  destruct (last_banner key rest); [reflexivity |].
  rewrite banner_update_lookup.
  destruct (banner_of p) as [[k banner] |]; [| reflexivity].
  destruct (String.eqb k key); reflexivity.
Qed.

Lemma trace_cache_grows (fprint : string) (cap : list packet) (pdict : gmap string string) :
  dom pdict ⊆ dom (trace fprint cap pdict).1.1.
Proof.
  revert pdict. induction cap as [| p rest IH]; intros pdict; [reflexivity |].
  cbn [trace].
  assert (Hstep : dom pdict ⊆ dom (banner_update p pdict)).
  { rewrite banner_update_eq. destruct (banner_of p) as [[k banner] |]; [| reflexivity].
    rewrite dom_insert_L. set_solver. }
  destruct (contribution fprint p pdict) as [records [[] | e]]; [| exact Hstep].
  specialize (IH (banner_update p pdict)).
  destruct (trace fprint rest (banner_update p pdict)) as [[pd' records'] r].
  cbn [fst snd] in *. set_solver.
Qed.

(** X12. No loop ever removes a banner from the cache: after the replay
    body or the live body on any packet, and after a whole loop over any
    packets, every key that was in the cache is still there. A packet
    changes at most the entry under its own key, to its own banner, and
    the two bodies leave the same cache. *)
Theorem banner_cache_only_grows
    (pcap fprint : string) (lf : pyval) (oprint : bool) (p : packet) (cap : list packet)
    (w : world) :
  protocol_dict (live_body fprint lf oprint p w).1
  = protocol_dict (replay_body pcap fprint oprint p w).1
  /\ dom (protocol_dict w) ⊆ dom (protocol_dict (replay_body pcap fprint oprint p w).1)
  /\ (forall key,
        protocol_dict (replay_body pcap fprint oprint p w).1 !! key
        = protocol_dict w !! key
        \/ exists banner,
             banner_of p = Some (key, banner)
             /\ protocol_dict (replay_body pcap fprint oprint p w).1 !! key = Some banner)
  /\ dom (protocol_dict w)
     ⊆ dom (protocol_dict (for_each (replay_body pcap fprint oprint) cap w).1)
  /\ dom (protocol_dict w)
     ⊆ dom (protocol_dict (for_each (live_body fprint lf oprint) cap w).1).
Proof.
  rewrite replay_body_contribution, live_body_contribution, for_each_replay, for_each_live.
  cbn [fst protocol_dict].
  split; [reflexivity |]. split; [| split; [| split; apply trace_cache_grows]].
  - rewrite banner_update_eq. destruct (banner_of p) as [[k banner] |]; [| reflexivity].
    rewrite dom_insert_L. set_solver.
  - intros key. rewrite banner_update_lookup.
    destruct (banner_of p) as [[k banner] |]; [| auto].
    destruct (String.eqb k key) eqn:Hk; [| auto].
    apply String.eqb_eq in Hk. subst. right. eauto.
Qed.

Lemma last_banner_snoc (key : string) (cap : list packet) (p : packet) :
  last_banner key (cap ++ [p])
  = match banner_of p with
    | Some (k, banner) => if String.eqb k key then Some banner else last_banner key cap
    | None => last_banner key cap
    end.
Proof.
  induction cap as [| q rest IH]; cbn [app last_banner].
  - destruct (banner_of p) as [[k banner] |]; [| reflexivity].
    destruct (String.eqb k key); reflexivity.
  - rewrite IH. destruct (banner_of p) as [[k banner] |]; [| reflexivity].
    destruct (String.eqb k key); reflexivity.
Qed.

(** X13. The protocol field of a fingerprint record is the banner of the
    last packet of the capture, up to and including the KEXINIT packet
    itself, that stored a banner under the key of the KEXINIT packet, and
    [None] when no packet did: the cache is last-write-wins per key over
    the whole run. The key is the one the code builds, which leaves the
    destination port out. *)
Theorem protocol_field_is_last_banner_of_key
    (pcap fprint : string) (oprint : bool) (ro : role) (before : list packet) (p : packet)
    (sshl : layer) (sip dip sp dp : string)
    (Hbefore : (for_each (replay_body pcap fprint oprint) before start).2 = Ok tt)
    (Hssh : ssh p = Some sshl) (Haddr : addressed p sip dip sp dp) :
  let w1 := (for_each (replay_body pcap fprint oprint) before start).1 in
  exists record,
    fingerprint ro p (protocol_dict (replay_body pcap fprint oprint p w1).1) = Ok record
    /\ record !! protocol_key ro
       = Some (match last_banner (key_format sip sp dip sp) (before ++ [p]) with
               | Some banner => PStr banner
               | None => PNone
               end)
    /\ (forall r,
          results (replay_body pcap fprint oprint p w1).1 = results w1 ++ [r] ->
          role_of r = Some ro -> r = record).
Proof.
  cbv zeta. revert Hbefore. unfold start.
  rewrite replay_body_contribution, for_each_replay. cbn [fst snd protocol_dict results].
  intros Hbefore.
  set (pd1 := (trace fprint before ∅).1.1).
  destruct (fingerprint_addressed ro p (banner_update p pd1) sshl sip dip sp dp Hssh Haddr)
    as (record & Hrec & _ & Hproto & _).
  exists record. split; [exact Hrec |]. split.
  - rewrite Hproto. f_equal. unfold lookup_protocol.
    assert (Hcache : banner_update p pd1 !! key_format sip sp dip sp
                     = last_banner (key_format sip sp dip sp) (before ++ [p])).
    { rewrite banner_update_lookup, last_banner_snoc. unfold pd1.
      rewrite (trace_cache_lookup fprint before ∅ _ Hbefore), lookup_empty.
      destruct (banner_of p) as [[k banner] |].
      - destruct (String.eqb k _); [reflexivity |].
        destruct (last_banner _ before); reflexivity.
      - destruct (last_banner _ before); reflexivity. }
    rewrite Hcache. reflexivity.
  - intros r Hres Hrole. apply app_inv_head in Hres.
    destruct (contribution_kinds fprint p pd1)
      as [Hnil | (_ & _ & record' & tcpl & Hone & _ & [[_ Hev] | (_ & ro' & _ & Hrec')])].
    + rewrite Hnil in Hres. discriminate.
    + rewrite Hone in Hres. injection Hres as <-.
      apply csv_logging_event in Hev as [Hnone _]. congruence.
    + rewrite Hone in Hres. injection Hres as <-.
      pose proof (fingerprint_role ro' p _ _ Hrec') as [Hrole' _].
      assert (ro' = ro) by congruence. subst. congruence.
Qed.

Lemma protocol_field_is_last_banner_of_key_witness :
  exists record,
    client_hassh Sample.client_kexinit
      (protocol_dict
         (replay_body "a.pcap" "all" false Sample.client_kexinit
            (for_each (replay_body "a.pcap" "all" false)
                      [Sample.banner_other_port; Sample.banner] start).1).1)
    = Ok record
    /\ record !! "client" = Some (PStr "SSH-2.0-OpenSSH_8.1").
Proof.
  assert (Hbefore : (for_each (replay_body "a.pcap" "all" false)
                              [Sample.banner_other_port; Sample.banner] start).2 = Ok tt)
    by (vm_compute; reflexivity).
  assert (Hssh : ssh Sample.client_kexinit = Some Sample.kexinit_fields) by reflexivity.
  assert (Haddr : addressed Sample.client_kexinit "10.0.0.1" "10.0.0.2" "51000" "22")
    by (split; vm_compute; reflexivity).
  destruct (protocol_field_is_last_banner_of_key "a.pcap" "all" false Client
              [Sample.banner_other_port; Sample.banner] Sample.client_kexinit
              _ _ _ _ _ Hbefore Hssh Haddr) as (record & Hrec & Hproto & _).
  exists record. split; [exact Hrec |].
  etransitivity; [exact Hproto |]. vm_compute. reflexivity.
Defined.

(** ** The CSV row and the fingerprint, field by field *)

(** X14. The row of [csv_logging] is made of the keys it reads and of
    nothing else: setting any other key of a record (the language lists,
    the lists of the other direction, [hasshVersion], or a key the
    builders do not know) changes neither the row nor the exception. *)
Theorem csv_logging_ignores_other_keys
    (record : dict) (k : string) (v : pyval) (Hk : k ∉ csv_keys) :
  csv_logging (<[k := v]> record) = csv_logging record.
Proof.
  assert (Hne : forall x, In x csv_keys -> k <> x).
  { intros x Hx ->. apply Hk, list_elem_of_In, Hx. }
  unfold csv_logging, csv_branches, dict_in, dict_get.
  rewrite !lookup_insert_ne by (apply Hne; cbn; tauto).
  reflexivity.
Qed.

Lemma csv_logging_ignores_other_keys_witness :
  csv_logging (<["clcts" := PStr "fr"]> Sample.client_record)
  = csv_logging Sample.client_record.
Proof.
  apply csv_logging_ignores_other_keys.
  intros H. apply list_elem_of_In in H. cbn in H.
  repeat (destruct H as [H | H]; [discriminate H |]). exact H.
Defined.

Lemma fingerprint_digest (ro : role) (p : packet) (pdict : gmap string string)
    (record : dict) (sshl : layer) :
  fingerprint ro p pdict = Ok record -> ssh p = Some sshl ->
  record !! input_key ro
  = Some (PStr (str_join ";" (map (fun kf => value_or_empty sshl kf.2) (own_fields ro))))
  /\ record !! digest_key ro
     = Some (PStr (md5_hexdigest
                     (encode (str_join ";" (map (fun kf => value_or_empty sshl kf.2)
                                                (own_fields ro)))))).
Proof.
  intros Hrec Hssh.
  destruct ro; simpl in Hrec; [unfold client_hassh in Hrec | unfold server_hassh in Hrec].
  all: peel Hrec.
  all: match goal with E : layer_of _ _ = Ok ?l |- _ =>
         apply layer_of_Ok in E; assert (l = sshl) by congruence; subst l end.
  all: injection Hrec as <-.
  all: split; reflexivity.
Qed.

(** X15. The digest and the input string of a fingerprint depend on the
    four lists of the own direction of the role and on nothing else: two
    packets that agree on these four (absent counting as empty) get the
    same digest and the same input string, whatever their addresses,
    ports, times, other lists and whatever the banner caches. *)
Theorem digest_depends_on_own_lists_only
    (ro : role) (p p' : packet) (pdict pdict' : gmap string string) (sshl sshl' : layer)
    (Hssh : ssh p = Some sshl) (Hssh' : ssh p' = Some sshl')
    (Hok : is_ok (fingerprint ro p pdict) = true)
    (Hok' : is_ok (fingerprint ro p' pdict') = true)
    (Hsame : Forall (fun kf => value_or_empty sshl kf.2 = value_or_empty sshl' kf.2)
                    (own_fields ro)) :
  field_of (fingerprint ro p pdict) (digest_key ro)
  = field_of (fingerprint ro p' pdict') (digest_key ro)
  /\ field_of (fingerprint ro p pdict) (input_key ro)
     = field_of (fingerprint ro p' pdict') (input_key ro)
  /\ is_Some (field_of (fingerprint ro p pdict) (digest_key ro)).
Proof.
  destruct (fingerprint ro p pdict) as [record |] eqn:Hrec; [| discriminate Hok].
  destruct (fingerprint ro p' pdict') as [record' |] eqn:Hrec'; [| discriminate Hok'].
  destruct (fingerprint_digest ro p pdict record sshl Hrec Hssh) as [Hin Hdig].
  destruct (fingerprint_digest ro p' pdict' record' sshl' Hrec' Hssh') as [Hin' Hdig'].
  assert (Hmap : map (fun kf : string * string => value_or_empty sshl kf.2) (own_fields ro)
                 = map (fun kf : string * string => value_or_empty sshl' kf.2)
                       (own_fields ro)).
  { clear - Hsame. revert Hsame. generalize (own_fields ro) as l. intros l Hsame.
    induction Hsame as [| kf l Hkf _ IH]; [reflexivity |].
    cbn. rewrite Hkf, IH. reflexivity. }
  cbn [field_of]. rewrite Hin, Hdig, Hin', Hdig', Hmap. eauto.
Qed.

Lemma digest_depends_on_own_lists_only_witness :
  field_of (client_hassh Sample.client_kexinit ∅) "hassh"
  = field_of (client_hassh Sample2.other_client_kexinit
                           (<["192.168.1.7:40022_192.168.1.1:40022" := "SSH-2.0-PuTTY"]> ∅))
             "hassh".
Proof.
  eapply (digest_depends_on_own_lists_only Client Sample.client_kexinit
            Sample2.other_client_kexinit).
  - reflexivity.
  - reflexivity.
  - vm_compute. reflexivity.
  - vm_compute. reflexivity.
  - repeat constructor; vm_compute; reflexivity.
Defined.

(** ** Which exceptions there are *)

Lemma layer_of_error (lname : string) (ol : option layer) (e : exn) :
  layer_of lname ol = Raise e -> attribute_error e.
Proof. destruct ol; simpl; intros [= <-]. eexists. reflexivity. Qed.

Lemma getattr_error (l : layer) (name : string) (e : exn) :
  getattr l name = Raise e -> attribute_error e.
Proof. unfold getattr. destruct (l !! name); intros [= <-]. eexists. reflexivity. Qed.

Lemma layer_field_error (lname name : string) (ol : option layer) (e : exn) :
  (l ← layer_of lname ol; getattr l name) = Raise e -> attribute_error e.
Proof.
  destruct (layer_of lname ol) as [l |] eqn:Hl; cbn [mbind res_bind].
  - apply getattr_error.
  - intros [= <-]. eapply layer_of_error. exact Hl.
Qed.

Lemma address_error (p : packet) (e : exn) :
  ip_src p = Raise e \/ ip_dst p = Raise e \/ tcp_srcport p = Raise e
  \/ tcp_dstport p = Raise e ->
  attribute_error e.
Proof. intros [H | [H | [H | H]]]; eapply layer_field_error; exact H. Qed.

Lemma flow_key_error (p : packet) (e : exn) :
  flow_key p = Raise e -> attribute_error e.
Proof.
  unfold flow_key.
  destruct (ip_src p) eqn:H1; cbn [mbind res_bind];
    [| intros [= <-]; eapply address_error; eauto].
  destruct (ip_dst p) eqn:H2; cbn [mbind res_bind];
    [| intros [= <-]; eapply address_error; eauto].
  destruct (tcp_srcport p) eqn:H3; cbn [mbind res_bind];
    [| intros [= <-]; eapply address_error; eauto].
  discriminate.
Qed.

Lemma not_addressed_error (p : packet) :
  (forall sip dip sp dp, ~ addressed p sip dip sp dp) ->
  exists e, attribute_error e
            /\ (ip_src p = Raise e \/ ip_dst p = Raise e \/ tcp_srcport p = Raise e
                \/ tcp_dstport p = Raise e).
Proof.
  intros Hno.
  destruct (ip_src p) as [sip | e] eqn:H1; [| exists e; split; [eapply address_error |]; eauto].
  destruct (ip_dst p) as [dip | e] eqn:H2; [| exists e; split; [eapply address_error |]; eauto].
  destruct (tcp_srcport p) as [sp | e] eqn:H3;
    [| exists e; split; [eapply address_error |]; eauto 6].
  destruct (tcp_dstport p) as [dp | e] eqn:H4;
    [| exists e; split; [eapply address_error |]; eauto 6].
  exfalso. apply (Hno sip dip sp dp). split; assumption.
Qed.

Lemma event_log_error (p : packet) (e : exn) :
  event_log p "retransmission" = Raise e -> attribute_error e.
Proof.
  unfold event_log. cbn [String.eqb Ascii.eqb Bool.eqb mbind res_bind].
  destruct (ip_src p) eqn:H1; cbn [mbind res_bind];
    [| intros [= <-]; eapply address_error; eauto].
  destruct (ip_dst p) eqn:H2; cbn [mbind res_bind];
    [| intros [= <-]; eapply address_error; eauto].
  destruct (tcp_srcport p) eqn:H3; cbn [mbind res_bind];
    [| intros [= <-]; eapply address_error; eauto].
  destruct (tcp_dstport p) eqn:H4; cbn [mbind res_bind];
    [| intros [= <-]; eapply address_error; eauto 6].
  discriminate.
Qed.

(** X16. [event_log] returns a record exactly when the event is
    [retransmission] and the packet carries its two addresses and its two
    ports. The record then has the seven keys of an event and no other,
    with the ports of the packet as they are (the destination port under
    [destinationPort]). With any other event name it raises
    [UnboundLocalError] on [event_message], whatever the packet; with
    [retransmission] it raises nothing but an [AttributeError]. *)
Theorem event_log_characterised (p : packet) (event : string) :
  (event <> "retransmission" ->
   event_log p event = Raise (UnboundLocalError "event_message"))
  /\ ((exists ev, event_log p "retransmission" = Ok ev)
      <-> exists sip dip sp dp, addressed p sip dip sp dp)
  /\ (forall ev sip dip sp dp,
        event_log p "retransmission" = Ok ev -> addressed p sip dip sp dp ->
        dom ev = list_to_set ["timestamp"; "eventType"; "eventMessage"; "sourceIp";
                              "destinationIp"; "sourcePort"; "destinationPort"]
        /\ ev !! "sourceIp" = Some (PStr sip) /\ ev !! "destinationIp" = Some (PStr dip)
        /\ ev !! "sourcePort" = Some (PStr sp) /\ ev !! "destinationPort" = Some (PStr dp))
  /\ (forall e, event_log p "retransmission" = Raise e -> attribute_error e).
Proof.
  split; [| split; [| split]].
  - intros Hne. unfold event_log. apply String.eqb_neq in Hne. rewrite Hne. reflexivity.
  - split.
    + intros [ev Hev]. apply event_log_inv in Hev as (sip & dip & sp & dp & Haddr & _).
      eauto.
    + intros (sip & dip & sp & dp & Haddr).
      destruct (event_log_addressed p sip dip sp dp Haddr) as (ev & Hev & _). eauto.
  - intros ev sip dip sp dp Hev Haddr.
    apply event_log_inv in Hev as (sip' & dip' & sp' & dp' & [H1 H2 H3 H4] & ->).
    destruct Haddr as [H1' H2' H3' H4'].
    assert (sip' = sip) by congruence. assert (dip' = dip) by congruence.
    assert (sp' = sp) by congruence. assert (dp' = dp) by congruence. subst.
    split; [| repeat split; reflexivity].
    unfold dict_of. cbn [fold_left fst snd list_to_set].
    rewrite !dom_insert_L, dom_empty_L. set_solver.
  - apply event_log_error.
Qed.

Lemma event_log_characterised_witness :
  event_log Sample.retransmitted_kexinit "duplicate"
  = Raise (UnboundLocalError "event_message")
  /\ exists ev, event_log Sample.retransmitted_kexinit "retransmission" = Ok ev.
Proof.
  destruct (event_log_characterised Sample.retransmitted_kexinit "duplicate")
    as (Hother & Hiff & _).
  split; [apply Hother; discriminate |].
  apply Hiff. exists "10.0.0.1", "10.0.0.2", "51000", "22".
  split; vm_compute; reflexivity.
Defined.

Lemma fingerprint_error (ro : role) (p : packet) (pdict : gmap string string) (e : exn) :
  fingerprint ro p pdict = Raise e -> attribute_error e.
Proof.
  destruct ro; cbn [fingerprint]; [unfold client_hassh | unfold server_hassh].
  all: destruct (flow_key p) eqn:Hk; cbn [mbind res_bind];
    [| intros [= <-]; eapply flow_key_error; eauto].
  all: destruct (layer_of "ssh" (ssh p)) eqn:Hl; cbn [mbind res_bind];
    [| intros [= <-]; eapply layer_of_error; eauto].
  all: run_fields.
  all: destruct (ip_src p) eqn:H1; cbn [mbind res_bind];
    [| intros [= <-]; eapply address_error; eauto].
  all: destruct (ip_dst p) eqn:H2; cbn [mbind res_bind];
    [| intros [= <-]; eapply address_error; eauto].
  all: destruct (tcp_srcport p) eqn:H3; cbn [mbind res_bind];
    [| intros [= <-]; eapply address_error; eauto].
  all: destruct (tcp_dstport p) eqn:H4; cbn [mbind res_bind];
    [| intros [= <-]; eapply address_error; eauto 6].
  all: discriminate.
Qed.

(** X17. [client_hassh] and [server_hassh] return a record exactly when the
    packet has an SSH layer and carries its two addresses and its two
    ports: which of the nine lists the SSH layer has, the role and the
    banner cache play no part, so that the two builders succeed on the
    same packets. When they raise, the exception is an [AttributeError]. *)
Theorem fingerprint_fails_only_on_missing_layers
    (ro ro' : role) (p : packet) (pdict pdict' : gmap string string) :
  (is_ok (fingerprint ro p pdict) = true
   <-> (exists sshl, ssh p = Some sshl) /\ exists sip dip sp dp, addressed p sip dip sp dp)
  /\ is_ok (fingerprint ro p pdict) = is_ok (fingerprint ro' p pdict')
  /\ (forall e, fingerprint ro p pdict = Raise e -> attribute_error e).
Proof.
  assert (Hiff : forall r pd,
             is_ok (fingerprint r p pd) = true
             <-> (exists sshl, ssh p = Some sshl)
                 /\ exists sip dip sp dp, addressed p sip dip sp dp).
  { intros r pd. split.
    - destruct (fingerprint r p pd) as [record |] eqn:Hrec; [| discriminate].
      intros _. apply fingerprint_inv in Hrec as (sshl & sip & dip & sp & dp & H1 & H2).
      eauto 10.
    - intros [[sshl Hssh] (sip & dip & sp & dp & Haddr)].
      destruct (fingerprint_addressed r p pd sshl sip dip sp dp Hssh Haddr)
        as (record & -> & _). reflexivity. }
  split; [apply Hiff |]. split; [| apply fingerprint_error].
  destruct (is_ok (fingerprint ro p pdict)) eqn:H1;
    destruct (is_ok (fingerprint ro' p pdict')) eqn:H2; try reflexivity.
  - apply Hiff in H1. apply (Hiff ro' pdict') in H1. congruence.
  - apply Hiff in H2. apply (Hiff ro pdict) in H2. congruence.
Qed.

Lemma port_test_error (ro fprint : string) (cmp : Z -> Z -> bool) (p : packet) (e : exn) :
  port_test ro fprint cmp p = Raise e ->
  attribute_error e \/ exists literal, e = ValueError literal.
Proof.
  unfold port_test. destruct (String.eqb fprint ro || String.eqb fprint "all");
    [| discriminate].
  destruct (tcp_srcport p) as [sp |] eqn:H1; cbn [mbind res_bind];
    [| intros [= <-]; left; eapply address_error; eauto].
  destruct (py_int sp) as [a |] eqn:Ha; cbn [mbind res_bind].
  2: { intros [= <-]. unfold py_int in Ha.
       destruct (int_literal (list_ascii_of_string sp)); [discriminate |].
       injection Ha as <-. eauto. }
  destruct (tcp_dstport p) as [dp |] eqn:H2; cbn [mbind res_bind];
    [| intros [= <-]; left; eapply address_error; eauto 6].
  destruct (py_int dp) as [b |] eqn:Hb; cbn [mbind res_bind]; [discriminate |].
  intros [= <-]. unfold py_int in Hb.
  destruct (int_literal (list_ascii_of_string dp)); [discriminate |].
  injection Hb as <-. eauto.
Qed.

(** X18. The only exceptions a loop body raises, in replay and in live
    capture, are the [AttributeError] of a missing layer or field and the
    [ValueError] of a port that [int] does not parse: none of the
    [KeyError] and [UnboundLocalError] of [csv_logging] and [event_log]
    can come out of a body, whatever the packet, the role filter and the
    log format. *)
Theorem loop_bodies_raise_attribute_or_value_errors
    (pcap fprint : string) (lf : pyval) (oprint : bool) (p : packet) (w : world) (e : exn) :
  (replay_body pcap fprint oprint p w).2 = Raise e
  \/ (live_body fprint lf oprint p w).2 = Raise e ->
  attribute_error e \/ exists literal, e = ValueError literal.
Proof.
  rewrite replay_body_contribution, live_body_contribution. cbn [snd].
  intros H. assert (Hc : (contribution fprint p (protocol_dict w)).2 = Raise e) by tauto.
  clear H. revert Hc. generalize (protocol_dict w) as pd. intros pd.
  unfold contribution, replay_body, note_protocol, bare. run.
  destruct (String.eqb (highest_layer p) "SSH"); cbn [negb]; [| discriminate].
  destruct (layer_of "ssh" (ssh p)) as [sshl |] eqn:Hssh;
    [| intros [= <-]; left; eapply layer_of_error; eauto].
  destruct (in_names "protocol" sshl);
    [destruct (getattr sshl "protocol") eqn:Hp;
       [| intros [= <-]; left; eapply getattr_error; eauto];
     destruct (flow_key p) eqn:Hkey; [| intros [= <-]; left; eapply flow_key_error; eauto] |].
  all: cbn [fst snd].
  all: destruct (in_names "message_code" sshl); cbn [negb]; [| discriminate].
  all: destruct (getattr sshl "message_code") as [code |] eqn:Hcode;
    [| intros [= <-]; left; eapply getattr_error; eauto].
  all: destruct (String.eqb code "20"); cbn [negb]; [| discriminate].
  all: destruct (layer_of "tcp" (tcp p)) as [tcpl |] eqn:Htcp;
    [| intros [= <-]; left; eapply layer_of_error; eauto].
  all: destruct (retransmitted tcpl);
    [destruct (event_log p "retransmission") eqn:Hev;
       [discriminate
       | intros [= <-]; left; eapply event_log_error; eauto] |].
  all: destruct (port_test "client" fprint Z.gtb p) as [[|] |] eqn:Hpc;
    [ | | intros [= <-]; eapply port_test_error; eauto].
  all: cbn [protocol_dict results logfile stdout fst snd].
  all: try (match goal with |- context [client_hassh ?q ?d] =>
         destruct (client_hassh q d) eqn:Hrec;
         [discriminate | intros [= <-]; left; eapply (fingerprint_error Client); eauto] end).
  all: destruct (port_test "server" fprint Z.ltb p) as [[|] |] eqn:Hps;
    [ | discriminate | intros [= <-]; eapply port_test_error; eauto].
  all: cbn [protocol_dict results logfile stdout fst snd].
  all: match goal with |- context [server_hassh ?q ?d] =>
         destruct (server_hassh q d) eqn:Hrec;
         [discriminate | intros [= <-]; left; eapply (fingerprint_error Server); eauto] end.
Qed.

Lemma loop_bodies_raise_attribute_or_value_errors_witness :
  attribute_error (AttributeError "ip")
  \/ exists literal, AttributeError "ip" = ValueError literal.
Proof.
  apply (loop_bodies_raise_attribute_or_value_errors "a.pcap" "all" PNone false
           Sample.ipv6_kexinit start).
  left. vm_compute. reflexivity.
Defined.

(** ** Which files of a directory are replayed *)

Lemma length_append (s t : string) :
  String.length (s +:+ t) = (String.length s + String.length t)%nat.
Proof. induction s as [| c s IH]; simpl; [reflexivity | rewrite IH; reflexivity]. Qed.

Lemma substring_all (s : string) : String.substring 0 (String.length s) s = s.
Proof. induction s as [| c s IH]; simpl; [reflexivity | rewrite IH; reflexivity]. Qed.

Lemma substring_append_r (pre suf : string) :
  String.substring (String.length pre) (String.length suf) (pre +:+ suf) = suf.
Proof. induction pre as [| c pre IH]; simpl; [apply substring_all | exact IH]. Qed.

Lemma substring_split (s : string) (k : nat) :
  (k <= String.length s)%nat ->
  s = String.substring 0 k s +:+ String.substring k (String.length s - k) s.
Proof.
  revert k. induction s as [| c s IH]; intros k Hk.
  - simpl in Hk. assert (k = 0)%nat by lia. subst. reflexivity.
  - destruct k as [| k].
    + simpl. rewrite substring_all. reflexivity.
    + simpl in Hk. simpl.
      change (String c (String.substring 0 k s)
              +:+ String.substring k (String.length s - k) s)
        with (String c (String.substring 0 k s
                        +:+ String.substring k (String.length s - k) s)).
      f_equal. apply IH. lia.
Qed.

Lemma endswith_iff (s suf : string) :
  endswith s suf = true <-> exists stem, s = stem +:+ suf.
Proof.
  unfold endswith. rewrite andb_true_iff, Nat.leb_le, String.eqb_eq. split.
  - intros [Hle Hsub]. exists (String.substring 0 (String.length s - String.length suf) s).
    pose proof (substring_split s (String.length s - String.length suf)) as Hsplit.
    replace (String.length s - (String.length s - String.length suf))%nat
      with (String.length suf) in Hsplit by lia.
    rewrite Hsub in Hsplit. apply Hsplit. lia.
  - intros [stem ->]. rewrite length_append. split; [lia |].
    replace (String.length stem + String.length suf - String.length suf)%nat
      with (String.length stem) by lia.
    apply substring_append_r.
Qed.

Lemma startswith_dot (s : string) :
  startswith s "." = true <-> exists rest, s = "." +:+ rest.
Proof.
  unfold startswith. destruct s as [| c s].
  - split; [intros H; discriminate H |].
    intros [rest H]. change ("." +:+ rest) with (String "." rest) in H. discriminate H.
  - change (String.prefix "." (String c s))
      with (if ascii_dec "." c then String.prefix EmptyString s else false).
    destruct (ascii_dec "." c) as [<- | Hne].
    + split; [intros _; exists s; reflexivity | intros _; destruct s; reflexivity].
    + split; [intros H; discriminate H |].
      intros [rest H]. change ("." +:+ rest) with (String "." rest) in H.
      injection H as H _. congruence.
Qed.

(** X19. The entries of a directory that are replayed are the ones that
    are not directories, whose name does not begin with a dot, and whose
    name ends with [.pcap], [.pcapng] or [.cap]: a hidden file is skipped
    whatever its extension, and the extension is compared as it is
    written, letter case included. *)
Theorem capture_file_selection (f : dir_entry) :
  is_capture_file f = true
  <-> entry_is_dir f = false
      /\ ~ (exists rest, entry_name f = "." +:+ rest)
      /\ exists stem ext,
           entry_name f = stem +:+ ext /\ In ext [".pcap"; ".pcapng"; ".cap"].
Proof.
  unfold is_capture_file.
  rewrite !andb_true_iff, !orb_true_iff, !negb_true_iff, !endswith_iff.
  rewrite <- not_true_iff_false, startswith_dot.
  split.
  - intros [[Hdot Hdir] Hext]. split; [exact Hdir |]. split; [exact Hdot |].
    destruct Hext as [[[stem ->] | [stem ->]] | [stem ->]]; eexists _, _;
      (split; [reflexivity | cbn; tauto]).
  - intros (Hdir & Hdot & stem & ext & Hname & Hext). split; [split; assumption |].
    cbn in Hext. destruct Hext as [<- | [<- | [<- | []]]]; eauto.
Qed.

Lemma capture_file_selection_witness :
  is_capture_file (DirEntry "trace.pcapng" "caps/trace.pcapng" false []) = true.
Proof.
  apply capture_file_selection. cbn [entry_is_dir entry_name].
  split; [reflexivity |]. split.
  - intros [rest H]. change ("." +:+ rest) with (String "." rest) in H. discriminate H.
  - exists "trace", ".pcapng". split; [reflexivity | cbn; tauto].
Defined.

(** ** Instances of the properties above *)

Lemma replay_of_a_prefix_is_a_prefix_witness :
  exists added,
    returned (process_pcap_file ([Sample.banner] ++ [Sample.client_kexinit])
                                "a.pcap" "all" false start)
    = returned (process_pcap_file [Sample.banner] "a.pcap" "all" false start) ++ added
    /\ length added = 1%nat.
Proof.
  destruct (replay_of_a_prefix_is_a_prefix [Sample.banner] [Sample.client_kexinit]
              "a.pcap" "all" false start) as (added & Heq & Hok & _).
  exists added. split; [exact Heq |].
  rewrite Hok by (vm_compute; reflexivity). vm_compute. reflexivity.
Defined.

Lemma live_capture_raises_where_replay_reports_witness :
  (live_capture [Sample.ipv6_kexinit] "all" PNone false start).2
  = Raise (AttributeError "ip").
Proof.
  apply (live_capture_raises_where_replay_reports [Sample.ipv6_kexinit] "a.pcap" "all"
           PNone false start start (AttributeError "ip")).
  vm_compute. reflexivity.
Defined.

Lemma main_csv_log_stops_at_first_event_witness :
  (main_read_file [Sample.retransmitted_kexinit] "a.pcap" "all" (PStr "csv") false start).2
  = Raise (UnboundLocalError "hasshType").
Proof.
  apply (main_csv_log_stops_at_first_event [Sample.retransmitted_kexinit] "a.pcap" "all"
           false false start).
  vm_compute. discriminate.
Defined.

Lemma directory_log_witness :
  (main_read_directory Sample2.directory "all" (PStr "csv") false start).2
  = Raise (UnboundLocalError "hasshType").
Proof.
  apply (directory_log Sample2.directory "all" false start).
  vm_compute. discriminate.
Defined.

Lemma fingerprint_fails_only_on_missing_layers_witness :
  attribute_error (AttributeError "ip")
  /\ is_ok (client_hassh Sample.client_kexinit ∅) = true.
Proof.
  destruct (fingerprint_fails_only_on_missing_layers Client Server Sample.ipv6_kexinit ∅ ∅)
    as (_ & _ & Herr).
  destruct (fingerprint_fails_only_on_missing_layers Client Server Sample.client_kexinit ∅ ∅)
    as (Hiff & _ & _).
  split.
  - apply Herr. vm_compute. reflexivity.
  - apply Hiff. split; [exists Sample.kexinit_fields; reflexivity |].
    exists "10.0.0.1", "10.0.0.2", "51000", "22". split; vm_compute; reflexivity.
Defined.
